(** * Status reporting of the cluster-autoscaler-operator

    A shallow embedding of [pkg/operator/status.go]: the [StatusReporter]
    that publishes the operator's health as a ClusterOperator resource, and
    the properties its specification states about it.

    The Go code talks to an API server through a typed client, reads the
    wall clock (through the condition helper of the cluster-version-operator
    library) and is driven by the polling helper of apimachinery.  All three
    are made explicit here:

    - the API server is a [World]: a finite map of ClusterOperator objects
      together with a script of injected faults and a log of the requests
      that were issued, in the manner of client-go's fake clientset
      (object tracker, reactors, recorded actions);
    - the clock is a script of future readings inside the [World];
    - the stop channel and the poller's ticker are a [Schedule].

    Every function of the source is a computation in the state monad [M]
    over [World], returning Go's [(value, error)] pair as a Rocq pair whose
    second component is an [option error] ([None] is Go's [nil]).
    Logging through glog has no effect on any of this and is left out. *)

From stdpp Require Import gmap strings list.
From Stdlib Require Import ZArith Ascii.

Local Open Scope string_scope.
Local Open Scope list_scope.
Local Open Scope Z_scope.

(** ** Data model *)

(** A Go slice is either [nil] or a (possibly empty) sequence of elements;
    [reflect.DeepEqual] tells the two apart, the other operations do not. *)
Definition slice (A : Type) : Type := option (list A).

Definition elems {A : Type} (s : slice A) : list A :=
  match s with
  | None => []
  | Some l => l
  end.

(** Go's built-in [append] of one element: the result is never [nil]. *)
Definition append {A : Type} (s : slice A) (x : A) : slice A :=
  Some (elems s ++ [x]).

(** [configv1.OperandVersion]. *)
Module OperandVersion.
Record t : Type := mk { Name : string; Version : string }.
End OperandVersion.

(** [configv1.ClusterStatusConditionType] and [configv1.ConditionStatus]
    are string types; these are the constants the source uses. *)
Definition OperatorAvailable : string := "Available".
Definition OperatorProgressing : string := "Progressing".
Definition OperatorFailing : string := "Failing".

Definition ConditionTrue : string := "True".
Definition ConditionFalse : string := "False".
Definition ConditionUnknown : string := "Unknown".

(** [configv1.ClusterOperatorStatusCondition].  [LastTransitionTime] is a
    [metav1.Time], kept as an instant on the integer time line; the zero
    value of the Go type is instant [0]. *)
Module ClusterOperatorStatusCondition.
Record t : Type := mk {
  Type_ : string;
  Status : string;
  LastTransitionTime : Z;
  Reason : string;
  Message : string
}.
End ClusterOperatorStatusCondition.

(** [configv1.ObjectReference]; the reporter only carries these through. *)
Module ObjectReference.
Record t : Type := mk {
  Group : string;
  Resource : string;
  Namespace : string;
  Name : string
}.
End ObjectReference.

(** [configv1.ClusterOperatorStatus].  [Extension] is the raw extension
    payload, which the reporter never sets. *)
Module ClusterOperatorStatus.
Record t : Type := mk {
  Conditions : slice ClusterOperatorStatusCondition.t;
  Versions : slice OperandVersion.t;
  RelatedObjects : slice ObjectReference.t;
  Extension : string
}.
Definition zero : t := mk None None None "".
End ClusterOperatorStatus.

(** [configv1.ClusterOperator]: of the object metadata only the name is
    ever read or written by the source. *)
Module ClusterOperator.
Record t : Type := mk { Name : string; Status : ClusterOperatorStatus.t }.
Definition zero : t := mk "" ClusterOperatorStatus.zero.
End ClusterOperator.

(** Reason messages used in status conditions. *)
Definition ReasonEmpty : string := "".
Definition ReasonMissingDependency : string := "MissingDependency".
Definition ReasonSyncing : string := "SyncingResources".

(** ** Errors *)

(** A Go [error] is either an API status error, which carries a
    [metav1.StatusReason], or any other error; both have a message. *)
Inductive error : Type :=
| StatusError (reason : string) (message : string)
| errorString (message : string).

Definition Error (e : error) : string :=
  match e with
  | StatusError _ m => m
  | errorString m => m
  end.

Definition StatusReasonNotFound : string := "NotFound".
Definition StatusReasonAlreadyExists : string := "AlreadyExists".

(** [errors.IsNotFound]: false on [nil] and on errors that are not API
    status errors. *)
Definition IsNotFound (err : option error) : bool :=
  match err with
  | Some (StatusError reason _) => String.eqb reason StatusReasonNotFound
  | _ => false
  end.

Definition quoted (s : string) : string :=
  String "034"%char (s +:+ String "034"%char "").

(** [errors.NewNotFound] and [errors.NewAlreadyExists] for the
    clusteroperators resource. *)
Definition NewNotFound (name : string) : error :=
  StatusError StatusReasonNotFound
    ("clusteroperators.config.openshift.io " +:+ quoted name +:+ " not found").

Definition NewAlreadyExists (name : string) : error :=
  StatusError StatusReasonAlreadyExists
    ("clusteroperators.config.openshift.io " +:+ quoted name +:+ " already exists").

(** [wait.ErrWaitTimeout]. *)
Definition ErrWaitTimeout : error :=
  errorString "timed out waiting for the condition".

(** ** Equality *)

Fixpoint list_eqb {A : Type} (eqb : A -> A -> bool) (l1 l2 : list A) : bool :=
  match l1, l2 with
  | [], [] => true
  | x :: l1', y :: l2' => eqb x y && list_eqb eqb l1' l2'
  | _, _ => false
  end.

Definition OperandVersion_eqb (a b : OperandVersion.t) : bool :=
  String.eqb (OperandVersion.Name a) (OperandVersion.Name b)
  && String.eqb (OperandVersion.Version a) (OperandVersion.Version b).

Definition Condition_eqb (a b : ClusterOperatorStatusCondition.t) : bool :=
  String.eqb (ClusterOperatorStatusCondition.Type_ a)
             (ClusterOperatorStatusCondition.Type_ b)
  && String.eqb (ClusterOperatorStatusCondition.Status a)
                (ClusterOperatorStatusCondition.Status b)
  && Z.eqb (ClusterOperatorStatusCondition.LastTransitionTime a)
           (ClusterOperatorStatusCondition.LastTransitionTime b)
  && String.eqb (ClusterOperatorStatusCondition.Reason a)
                (ClusterOperatorStatusCondition.Reason b)
  && String.eqb (ClusterOperatorStatusCondition.Message a)
                (ClusterOperatorStatusCondition.Message b).

Definition ObjectReference_eqb (a b : ObjectReference.t) : bool :=
  String.eqb (ObjectReference.Group a) (ObjectReference.Group b)
  && String.eqb (ObjectReference.Resource a) (ObjectReference.Resource b)
  && String.eqb (ObjectReference.Namespace a) (ObjectReference.Namespace b)
  && String.eqb (ObjectReference.Name a) (ObjectReference.Name b).

(** [reflect.DeepEqual] at type [[]OperandVersion]: two slices are deeply
    equal when both are nil or both are non-nil, and they have the same
    elements in the same order.  A nil slice and an empty non-nil slice are
    not deeply equal. *)
Definition reflect_DeepEqual (a b : slice OperandVersion.t) : bool :=
  match a, b with
  | None, None => true
  | Some l1, Some l2 => list_eqb OperandVersion_eqb l1 l2
  | _, _ => false
  end.

(** [equality.Semantic.DeepEqual] at type [ClusterOperatorStatus]: like
    [reflect.DeepEqual] field by field, except that an empty slice is the
    same as a nil slice and that [metav1.Time] values are compared as
    instants. *)
Definition semantic_slice_eqb {A : Type} (eqb : A -> A -> bool)
    (a b : slice A) : bool :=
  list_eqb eqb (elems a) (elems b).

Definition Semantic_DeepEqual (a b : ClusterOperatorStatus.t) : bool :=
  semantic_slice_eqb Condition_eqb
    (ClusterOperatorStatus.Conditions a) (ClusterOperatorStatus.Conditions b)
  && semantic_slice_eqb OperandVersion_eqb
    (ClusterOperatorStatus.Versions a) (ClusterOperatorStatus.Versions b)
  && semantic_slice_eqb ObjectReference_eqb
    (ClusterOperatorStatus.RelatedObjects a)
    (ClusterOperatorStatus.RelatedObjects b)
  && String.eqb (ClusterOperatorStatus.Extension a)
                (ClusterOperatorStatus.Extension b).

(** ** The world: API server, clock and request log *)

Inductive Action : Type :=
| ActGet (name : string)
| ActCreate (obj : ClusterOperator.t)
| ActUpdateStatus (obj : ClusterOperator.t).

Record World : Type := mkWorld {
  (** the stored ClusterOperators: under each name, the status of the
      object of that name *)
  objects : gmap string ClusterOperatorStatus.t;
  (** one entry per request still to come: [Some e] makes it fail with [e] *)
  faults : list (option error);
  (** the last clock reading and the readings still to come *)
  now : Z;
  clock : list Z;
  (** the requests issued so far, most recent first *)
  actions : list Action
}.

Definition set_objects (m : gmap string ClusterOperatorStatus.t) (w : World)
    : World :=
  mkWorld m (faults w) (now w) (clock w) (actions w).

Definition set_faults (fs : list (option error)) (w : World) : World :=
  mkWorld (objects w) fs (now w) (clock w) (actions w).

Definition set_clock (t : Z) (ts : list Z) (w : World) : World :=
  mkWorld (objects w) (faults w) t ts (actions w).

Definition record (a : Action) (w : World) : World :=
  mkWorld (objects w) (faults w) (now w) (clock w) (a :: actions w).

(** The state monad over [World]. *)
Definition M (A : Type) : Type := World -> A * World.

Definition ret {A : Type} (a : A) : M A := fun w => (a, w).

Definition bind {A B : Type} (c : M A) (k : A -> M B) : M B :=
  fun w => let (a, w') := c w in k a w'.

Notation "'let*' x ':=' c 'in' k" := (bind c (fun x => k))
  (at level 10, x pattern, c at level 100, k at level 200).

(** [time.Now()]: the next reading of the clock script; a clock whose script
    is exhausted stands still. *)
Definition time_Now : M Z := fun w =>
  match clock w with
  | [] => (now w, w)
  | t :: ts => (t, set_clock t ts w)
  end.

(** The fault, if any, injected into the next request. *)
Definition nextFault : M (option error) := fun w =>
  match faults w with
  | [] => (None, w)
  | f :: fs => (f, set_faults fs w)
  end.

(** The typed client for ClusterOperators.  Every request is logged and may
    be failed by the fault script; as in the generated client, a failed
    request returns the zero object together with the error.  A fetch of a
    name that is not stored fails with not-found, a creation under a name
    that is stored with already-exists.  The store keeps an object as it
    was handed over. *)
Definition client_Get (name : string) : M (ClusterOperator.t * option error) :=
  let* fault := nextFault ∘ record (ActGet name) in
  match fault with
  | Some e => ret (ClusterOperator.zero, Some e)
  | None => fun w =>
      match objects w !! name with
      | Some status => ((ClusterOperator.mk name status, None), w)
      | None => ((ClusterOperator.zero, Some (NewNotFound name)), w)
      end
  end.

Definition client_Create (obj : ClusterOperator.t)
    : M (ClusterOperator.t * option error) :=
  let* fault := nextFault ∘ record (ActCreate obj) in
  match fault with
  | Some e => ret (ClusterOperator.zero, Some e)
  | None => fun w =>
      let name := ClusterOperator.Name obj in
      match objects w !! name with
      | Some _ => ((ClusterOperator.zero, Some (NewAlreadyExists name)), w)
      | None =>
          ((obj, None),
           set_objects (<[name := ClusterOperator.Status obj]> (objects w)) w)
      end
  end.

(** [UpdateStatus] overwrites the status of the stored object of that
    name. *)
Definition client_UpdateStatus (obj : ClusterOperator.t)
    : M (ClusterOperator.t * option error) :=
  let* fault := nextFault ∘ record (ActUpdateStatus obj) in
  match fault with
  | Some e => ret (ClusterOperator.zero, Some e)
  | None => fun w =>
      let name := ClusterOperator.Name obj in
      match objects w !! name with
      | Some _ =>
          ((obj, None),
           set_objects (<[name := ClusterOperator.Status obj]> (objects w)) w)
      | None => ((ClusterOperator.zero, Some (NewNotFound name)), w)
      end
  end.

(** The number of status writes issued so far. *)
Definition isUpdate (a : Action) : bool :=
  match a with
  | ActUpdateStatus _ => true
  | _ => false
  end.

Definition updates (w : World) : nat :=
  List.length (List.filter isUpdate (actions w)).

(** ** Helpers of the cluster-version-operator library ([cvorm]) *)

(** [FindOperatorStatusCondition] returns a pointer to the first condition
    of the given type; the pointer is its index here. *)
Fixpoint FindOperatorStatusCondition
    (conditions : list ClusterOperatorStatusCondition.t)
    (conditionType : string) : option nat :=
  match conditions with
  | [] => None
  | c :: rest =>
      if String.eqb (ClusterOperatorStatusCondition.Type_ c) conditionType
      then Some O
      else option_map S (FindOperatorStatusCondition rest conditionType)
  end.

(** [IsOperatorStatusConditionPresentAndEqual]: the first condition of the
    given type decides. *)
Fixpoint IsOperatorStatusConditionPresentAndEqual
    (conditions : list ClusterOperatorStatusCondition.t)
    (conditionType status : string) : bool :=
  match conditions with
  | [] => false
  | c :: rest =>
      if String.eqb (ClusterOperatorStatusCondition.Type_ c) conditionType
      then String.eqb (ClusterOperatorStatusCondition.Status c) status
      else IsOperatorStatusConditionPresentAndEqual rest conditionType status
  end.

Definition IsOperatorStatusConditionTrue
    (conditions : slice ClusterOperatorStatusCondition.t)
    (conditionType : string) : bool :=
  IsOperatorStatusConditionPresentAndEqual (elems conditions) conditionType
    ConditionTrue.

Definition IsOperatorStatusConditionFalse
    (conditions : slice ClusterOperatorStatusCondition.t)
    (conditionType : string) : bool :=
  IsOperatorStatusConditionPresentAndEqual (elems conditions) conditionType
    ConditionFalse.

(** [SetOperatorStatusCondition]: a condition of a type not yet in the list
    is appended with the current time as its transition time; an existing
    one takes the new reason and message, and the new status and a fresh
    transition time when the status changes. *)
Definition SetOperatorStatusCondition
    (conditions : slice ClusterOperatorStatusCondition.t)
    (newCondition : ClusterOperatorStatusCondition.t)
    : M (slice ClusterOperatorStatusCondition.t) :=
  let l := elems conditions in
  match FindOperatorStatusCondition l
          (ClusterOperatorStatusCondition.Type_ newCondition) with
  | None =>
      let* t := time_Now in
      ret (append conditions
             (ClusterOperatorStatusCondition.mk
                (ClusterOperatorStatusCondition.Type_ newCondition)
                (ClusterOperatorStatusCondition.Status newCondition)
                t
                (ClusterOperatorStatusCondition.Reason newCondition)
                (ClusterOperatorStatusCondition.Message newCondition)))
  | Some i =>
      match l !! i with
      | None => ret conditions
      | Some existing =>
          if String.eqb (ClusterOperatorStatusCondition.Status existing)
                        (ClusterOperatorStatusCondition.Status newCondition)
          then
            ret (Some (<[i :=
              ClusterOperatorStatusCondition.mk
                (ClusterOperatorStatusCondition.Type_ existing)
                (ClusterOperatorStatusCondition.Status existing)
                (ClusterOperatorStatusCondition.LastTransitionTime existing)
                (ClusterOperatorStatusCondition.Reason newCondition)
                (ClusterOperatorStatusCondition.Message newCondition)]> l))
          else
            let* t := time_Now in
            ret (Some (<[i :=
              ClusterOperatorStatusCondition.mk
                (ClusterOperatorStatusCondition.Type_ existing)
                (ClusterOperatorStatusCondition.Status newCondition)
                t
                (ClusterOperatorStatusCondition.Reason newCondition)
                (ClusterOperatorStatusCondition.Message newCondition)]> l))
      end
  end.

(** A [for _, x := range l] loop that threads a value through its body. *)
Fixpoint forRange {A S : Type} (l : list A) (body : S -> A -> M S) (s : S)
    : M S :=
  match l with
  | [] => ret s
  | x :: rest => let* s' := body s x in forRange rest body s'
  end.

(** ** The polling helper of apimachinery ([wait]) *)

(** What the loop meets while it waits: the ticker fires after the
    environment has acted on the world for one interval ([Tick]); or the
    stop channel is found closed ([Stop]); or the poller's channel is found
    closed, which the releases whose [WaitFor] has no [select] answer with
    one last call of the condition ([LastCall]).  A finite schedule covers
    every run in which the stop channel is closed at some time, and every
    run that ends before that because the condition returned done. *)
Inductive Schedule : Type :=
| Stop
| LastCall (env : World -> World)
| Tick (env : World -> World) (rest : Schedule).

Fixpoint WaitFor (fn : M (bool * option error)) (s : Schedule)
    : M (option error) :=
  match s with
  | Stop => ret (Some ErrWaitTimeout)
  | LastCall env => fun w =>
      let '((ok, err), w') := fn (env w) in
      match err with
      | Some e => (Some e, w')
      | None => if ok then (None, w') else (Some ErrWaitTimeout, w')
      end
  | Tick env rest => fun w =>
      let '((ok, err), w') := fn (env w) in
      match err with
      | Some e => (Some e, w')
      | None => if ok then (None, w') else WaitFor fn rest w'
      end
  end.

(** [PollImmediateUntil] calls the condition once before any waiting; when
    that call neither fails nor is done, a stop channel that is already
    closed ends the poll with [ErrWaitTimeout], and otherwise [PollUntil]
    takes over, which is [WaitFor] on a ticker of the given interval.  The
    interval itself only paces the schedule. *)
Definition PollImmediateUntil (condition : M (bool * option error))
    (stopCh : Schedule) : M (option error) :=
  let* (done, err) := condition in
  match err with
  | Some e => ret (Some e)
  | None => if done then ret None else WaitFor condition stopCh
  end.

(** ** The status reporter *)

(** [StatusReporter]: its [client] field is the handle on the [World]. *)
Record StatusReporter : Type := mkStatusReporter {
  relatedObjects : slice ObjectReference.t
}.

(** [printOperandVersions] and the [strings.Join] it ends with. *)
Definition strings_Join (elems : list string) (sep : string) : string :=
  match elems with
  | [] => ""
  | e :: rest => fold_left (fun b s => b +:+ sep +:+ s) rest e
  end.

Definition printOperandVersions (desiredVersions : slice OperandVersion.t)
    : string :=
  let versionsOutput :=
    fold_left
      (fun out operand =>
         out ++ [OperandVersion.Name operand +:+ ": "
                 +:+ OperandVersion.Version operand])
      (elems desiredVersions) [] in
  strings_Join versionsOutput ", ".

(** The local [conditions] of [Available], [Fail] and [Progressing]: the
    three condition literals each of them hands to [ApplyConditions].  A
    field the literal leaves out has the zero value of its type. *)
Definition Available_conditions (reason message : string)
    : slice ClusterOperatorStatusCondition.t :=
  Some [
    ClusterOperatorStatusCondition.mk OperatorAvailable ConditionTrue 0
      reason message;
    ClusterOperatorStatusCondition.mk OperatorProgressing ConditionFalse 0
      "" "";
    ClusterOperatorStatusCondition.mk OperatorFailing ConditionFalse 0
      "" ""
  ].

Definition Fail_conditions (reason message : string)
    : slice ClusterOperatorStatusCondition.t :=
  Some [
    ClusterOperatorStatusCondition.mk OperatorAvailable ConditionTrue 0
      "" "";
    ClusterOperatorStatusCondition.mk OperatorProgressing ConditionFalse 0
      "" "";
    ClusterOperatorStatusCondition.mk OperatorFailing ConditionTrue 0
      reason message
  ].

Definition Progressing_conditions (reason message : string)
    : slice ClusterOperatorStatusCondition.t :=
  Some [
    ClusterOperatorStatusCondition.mk OperatorAvailable ConditionTrue 0
      "" "";
    ClusterOperatorStatusCondition.mk OperatorProgressing ConditionTrue 0
      reason message;
    ClusterOperatorStatusCondition.mk OperatorFailing ConditionFalse 0
      "" ""
  ].

Section Reporter.

(** The name of the operator's own ClusterOperator, a constant of the
    package declared next to the operator itself, and the version string of
    the build, [version.Raw]. *)
Variable OperatorName : string.
Variable Raw : string.

(** [GetOrCreateClusterOperator] gets, or if necessary, creates the
    operator's ClusterOperator object and returns it. *)
Definition GetOrCreateClusterOperator : M (ClusterOperator.t * option error) :=
  let clusterOperator :=
    ClusterOperator.mk OperatorName ClusterOperatorStatus.zero in
  let* (existing, err) := client_Get OperatorName in
  if IsNotFound err
  then client_Create clusterOperator
  else ret (existing, err).

Definition IsDifferentVersions (desiredVersions : slice OperandVersion.t)
    : M (bool * option error) :=
  let* (co, err) := GetOrCreateClusterOperator in
  match err with
  | Some e => ret (false, Some e)
  | None =>
      let currentVersions :=
        ClusterOperatorStatus.Versions (ClusterOperator.Status co) in
      ret (negb (reflect_DeepEqual desiredVersions currentVersions), None)
  end.

(** The candidate status that [ApplyConditions] builds before it looks at
    the store: the fixed version entry, the related objects of the
    reporter, and the given conditions set one by one. *)
Definition buildStatus (r : StatusReporter)
    (conds : slice ClusterOperatorStatusCondition.t)
    : M ClusterOperatorStatus.t :=
  let status :=
    ClusterOperatorStatus.mk None
      (Some [OperandVersion.mk "cluster-autoscaler" Raw])
      (relatedObjects r) "" in
  let* conditions :=
    forRange (elems conds) SetOperatorStatusCondition
      (ClusterOperatorStatus.Conditions status) in
  ret (ClusterOperatorStatus.mk conditions
         (ClusterOperatorStatus.Versions status)
         (ClusterOperatorStatus.RelatedObjects status)
         (ClusterOperatorStatus.Extension status)).

(** [ApplyConditions] applies the given conditions to the ClusterOperator
    resource's status. *)
Definition ApplyConditions (r : StatusReporter)
    (conds : slice ClusterOperatorStatusCondition.t) : M (option error) :=
  let* status := buildStatus r conds in
  let* (co, err) := GetOrCreateClusterOperator in
  match err with
  | Some e => ret (Some e)
  | None =>
      if negb (Semantic_DeepEqual (ClusterOperator.Status co) status)
      then
        let* (_, err') :=
          client_UpdateStatus
            (ClusterOperator.mk (ClusterOperator.Name co) status) in
        ret err'
      else ret err
  end.

(** [Available] reports the operator as available, not progressing, and
    not failing. *)
Definition Available (r : StatusReporter) (reason message : string)
    : M (option error) :=
  ApplyConditions r (Available_conditions reason message).

(** [Fail] reports the operator as failing but available, and not
    progressing. *)
Definition Fail (r : StatusReporter) (reason message : string)
    : M (option error) :=
  ApplyConditions r (Fail_conditions reason message).

(** [Progressing] reports the operator as progressing but available, and
    not failing. *)
Definition Progressing (r : StatusReporter) (reason message : string)
    : M (option error) :=
  ApplyConditions r (Progressing_conditions reason message).

(** [CheckMachineAPI] checks the status of the machine-api-operator as
    reported to the CVO.  It returns true if the operator is available and
    not failing. *)
Definition CheckMachineAPI : M (bool * option error) :=
  let* (mao, err) := client_Get "machine-api" in
  match err with
  | Some e => ret (false, Some e)
  | None =>
      let conds :=
        ClusterOperatorStatus.Conditions (ClusterOperator.Status mao) in
      if IsOperatorStatusConditionTrue conds OperatorAvailable
         && IsOperatorStatusConditionFalse conds OperatorFailing
      then ret (true, None)
      else ret (false, None)
  end.

(** The desired versions of [Report], a placeholder in the source. *)
Definition desiredVersions : slice OperandVersion.t :=
  Some [OperandVersion.mk "operator" Raw].

(** The condition function that [Report] polls.  The errors of [Fail],
    [Progressing] and [Available] are dropped, as in the source. *)
Definition pollFunc (r : StatusReporter) : M (bool * option error) :=
  let* (ok, err) := CheckMachineAPI in
  match err with
  | Some e =>
      let* _ := Fail r ReasonMissingDependency
                  ("error checking machine-api operator status " +:+ Error e) in
      ret (false, None)
  | None =>
      if ok then
        let* (isProgress, err2) := IsDifferentVersions desiredVersions in
        match err2 with
        | Some e2 =>
            let* _ := Fail r ReasonEmpty
                        ("error checking cluster-autoscaler-operator version "
                         +:+ Error e2) in
            ret (false, None)
        | None =>
            if isProgress then
              let* _ := Progressing r ReasonSyncing
                          ("Syncing to version "
                           +:+ printOperandVersions desiredVersions) in
              ret (false, None)
            else
              let* _ := Available r ReasonEmpty "" in
              ret (true, None)
        end
      else
        let* _ := Fail r ReasonMissingDependency
                    "machine-api operator not ready" in
        ret (false, None)
  end.

(** [Report] checks the status of dependencies and reports the operator's
    status.  It polls until the stop channel is closed or prerequisites are
    satisfied. *)
Definition Report (r : StatusReporter) (stopCh : Schedule) : M (option error) :=
  PollImmediateUntil (pollFunc r) stopCh.


(** ** Vocabulary of the specification *)

(** What a condition says, its transition time apart. *)
Definition shape (c : ClusterOperatorStatusCondition.t)
    : string * string * string * string :=
  (ClusterOperatorStatusCondition.Type_ c,
   ClusterOperatorStatusCondition.Status c,
   ClusterOperatorStatusCondition.Reason c,
   ClusterOperatorStatusCondition.Message c).

Definition shapes (status : ClusterOperatorStatus.t)
    : list (string * string * string * string) :=
  map shape (elems (ClusterOperatorStatus.Conditions status)).

(** The types of the conditions of a status, in their order. *)
Definition conditionTypes (status : ClusterOperatorStatus.t) : list string :=
  map ClusterOperatorStatusCondition.Type_
    (elems (ClusterOperatorStatus.Conditions status)).

(** "A condition of type [t] is present with status [s]", read as: some
    condition of the list has that type and that status. *)
Definition present (conds : slice ClusterOperatorStatusCondition.t)
    (t s : string) : Prop :=
  exists c, In c (elems conds)
    /\ ClusterOperatorStatusCondition.Type_ c = t
    /\ ClusterOperatorStatusCondition.Status c = s.

(** The first condition of type [t] in the list, if any. *)
Definition firstOfType (conds : slice ClusterOperatorStatusCondition.t)
    (t : string) : option ClusterOperatorStatusCondition.t :=
  List.find
    (fun c => String.eqb (ClusterOperatorStatusCondition.Type_ c) t)
    (elems conds).

Definition firstHasStatus (conds : slice ClusterOperatorStatusCondition.t)
    (t s : string) : Prop :=
  exists c, firstOfType conds t = Some c
    /\ ClusterOperatorStatusCondition.Status c = s.

(** Two version lists are identical element by element and in order. *)
Definition sameElements (a b : slice OperandVersion.t) : Prop :=
  elems a = elems b.

(** An operand rendered as "name: version", and renderings joined by a
    separator, in the order of the list. *)
Definition rendered (operand : OperandVersion.t) : string :=
  OperandVersion.Name operand +:+ ": " +:+ OperandVersion.Version operand.

Fixpoint joined (sep : string) (l : list string) : string :=
  match l with
  | [] => ""
  | [x] => x
  | x :: rest => x +:+ sep +:+ joined sep rest
  end.

(** Whether some call of the condition in a run of the poll returns done:
    the run has reached its successful end. *)
Fixpoint doneInWait (fn : M (bool * option error)) (s : Schedule) (w : World)
    : bool :=
  match s with
  | Stop => false
  | LastCall env => fst (fst (fn (env w)))
  | Tick env rest =>
      let '((ok, _), w') := fn (env w) in
      ok || doneInWait fn rest w'
  end.

Definition doneInPoll (fn : M (bool * option error)) (s : Schedule) (w : World)
    : bool :=
  let '((ok, _), w') := fn w in
  ok || doneInWait fn s w'.

(** [sameStore w w']: the two worlds differ at most in their clocks. *)
Definition sameStore (w w' : World) : Prop :=
  objects w' = objects w /\ faults w' = faults w /\ actions w' = actions w.

(** A computation that only reads the clock: on a clock that stands still
    it leaves the world as it is, and its result depends on the world only
    through the reading. *)
Definition readsClockOnly {A : Type} (c : M A) : Prop :=
  forall w, clock w = [] ->
    snd (c w) = w
    /\ forall w', clock w' = [] -> now w' = now w -> fst (c w') = fst (c w).

(** ** Example worlds

    The inputs at which the theorems below are instantiated. *)

Definition exampleName : string := "cluster-autoscaler".
Definition exampleRaw : string := "v0.0.1".
Definition exampleReporter : StatusReporter := mkStatusReporter None.

Definition condition (t s : string) : ClusterOperatorStatusCondition.t :=
  ClusterOperatorStatusCondition.mk t s 0 "" "".

(** An empty store that answers every request, and a clock standing still. *)
Definition emptyWorld : World := mkWorld ∅ [] 0 [] [].

(** The same store, with a clock that reads 100 three times and, one poll
    interval of fifteen seconds later, 115. *)
Definition tickingWorld : World :=
  mkWorld ∅ [] 0 [100; 100; 100; 115; 115; 115] [].

(** A machine-api record that is available and not failing. *)
Definition healthyStatus : ClusterOperatorStatus.t :=
  ClusterOperatorStatus.mk
    (Some [condition OperatorAvailable ConditionTrue;
           condition OperatorProgressing ConditionFalse;
           condition OperatorFailing ConditionFalse])
    None None "".

Definition healthyWorld : World :=
  mkWorld {[ "machine-api" := healthyStatus ]} [] 0 [] [].

(** A machine-api record whose list has two conditions of type Available,
    the first of them False. *)
Definition duplicateStatus : ClusterOperatorStatus.t :=
  ClusterOperatorStatus.mk
    (Some [condition OperatorAvailable ConditionFalse;
           condition OperatorAvailable ConditionTrue;
           condition OperatorFailing ConditionFalse])
    None None "".

Definition duplicateWorld : World :=
  mkWorld {[ "machine-api" := duplicateStatus ]} [] 0 [] [].

(** A healthy machine-api, and a record of the operator whose version list
    is the desired one. *)
Definition syncedStatus : ClusterOperatorStatus.t :=
  ClusterOperatorStatus.mk None
    (Some [OperandVersion.mk "operator" exampleRaw]) None "".

Definition syncedWorld : World :=
  mkWorld (<[ exampleName := syncedStatus ]>
             {[ "machine-api" := healthyStatus ]}) [] 0 [] [].

(** A connection error, and stores that answer a request with it: the
    first request; the third request; the second request, with a healthy
    machine-api record in the store. *)
Definition refused : error := errorString "connection refused".

Definition refusedWorld : World := mkWorld ∅ [Some refused] 0 [] [].

Definition refusedWriteWorld : World :=
  mkWorld ∅ [None; None; Some refused] 0 [] [].

Definition refusedVersionWorld : World :=
  mkWorld {[ "machine-api" := healthyStatus ]} [None; Some refused] 0 [] [].

(** ** Vocabulary for whole runs *)

(** The stored record of the operator, if there is one, does not have the
    version list that [Report] desires. *)
Definition neverDesired (w : World) : Prop :=
  forall status,
    objects w !! OperatorName = Some status ->
    reflect_DeepEqual desiredVersions (ClusterOperatorStatus.Versions status)
      = false.

(** An environment that does not put the desired version list there, and a
    schedule all of whose environments are such. *)
Definition keepsNeverDesired (env : World -> World) : Prop :=
  forall w, neverDesired w -> neverDesired (env w).

Fixpoint quietSchedule (s : Schedule) : Prop :=
  match s with
  | Stop => True
  | LastCall env => keepsNeverDesired env
  | Tick env rest => keepsNeverDesired env /\ quietSchedule rest
  end.

(** ** Equality lemmas *)

Lemma list_eqb_eq {A : Type} (eqb : A -> A -> bool) :
  (forall a b, eqb a b = true <-> a = b) ->
  forall l1 l2, list_eqb eqb l1 l2 = true <-> l1 = l2.
Proof.
  intros Heqb l1.
  induction l1 as [|x l1 IH]; intros [|y l2]; simpl; split;
    try congruence; try reflexivity.
  - intros H. apply andb_prop in H as [Hxy Hl].
    apply Heqb in Hxy. apply IH in Hl. congruence.
  - intros H. injection H as -> ->.
    apply andb_true_intro. split; [apply Heqb | apply IH]; reflexivity.
Qed.

Lemma OperandVersion_eqb_eq (a b : OperandVersion.t) :
  OperandVersion_eqb a b = true <-> a = b.
Proof.
  destruct a as [n1 v1], b as [n2 v2]. unfold OperandVersion_eqb. simpl.
  rewrite andb_true_iff, !String.eqb_eq. split.
  - intros [-> ->]. reflexivity.
  - intros H. injection H as -> ->. split; reflexivity.
Qed.

Lemma Condition_eqb_eq (a b : ClusterOperatorStatusCondition.t) :
  Condition_eqb a b = true <-> a = b.
Proof.
  destruct a as [t1 s1 l1 r1 m1], b as [t2 s2 l2 r2 m2].
  unfold Condition_eqb. simpl.
  rewrite !andb_true_iff, !String.eqb_eq, Z.eqb_eq. split.
  - intros [[[[-> ->] ->] ->] ->]. reflexivity.
  - intros H. injection H as -> -> -> -> ->. repeat split.
Qed.

Lemma ObjectReference_eqb_eq (a b : ObjectReference.t) :
  ObjectReference_eqb a b = true <-> a = b.
Proof.
  destruct a as [g1 r1 ns1 n1], b as [g2 r2 ns2 n2].
  unfold ObjectReference_eqb. simpl.
  rewrite !andb_true_iff, !String.eqb_eq. split.
  - intros [[[-> ->] ->] ->]. reflexivity.
  - intros H. injection H as -> -> -> ->. repeat split.
Qed.

Lemma reflect_DeepEqual_eq (a b : slice OperandVersion.t) :
  reflect_DeepEqual a b = true <-> a = b.
Proof.
  destruct a as [l1|], b as [l2|]; simpl; split; try congruence;
    try reflexivity.
  - intros H. apply (list_eqb_eq _ OperandVersion_eqb_eq) in H. congruence.
  - intros H. injection H as ->.
    apply (list_eqb_eq _ OperandVersion_eqb_eq). reflexivity.
Qed.

(** Semantic equality of two statuses is equality of their contents, with
    each slice taken as the list of its elements. *)
Lemma Semantic_DeepEqual_iff (a b : ClusterOperatorStatus.t) :
  Semantic_DeepEqual a b = true <->
  elems (ClusterOperatorStatus.Conditions a)
    = elems (ClusterOperatorStatus.Conditions b)
  /\ elems (ClusterOperatorStatus.Versions a)
    = elems (ClusterOperatorStatus.Versions b)
  /\ elems (ClusterOperatorStatus.RelatedObjects a)
    = elems (ClusterOperatorStatus.RelatedObjects b)
  /\ ClusterOperatorStatus.Extension a = ClusterOperatorStatus.Extension b.
Proof.
  unfold Semantic_DeepEqual, semantic_slice_eqb.
  rewrite !andb_true_iff, String.eqb_eq.
  rewrite (list_eqb_eq _ Condition_eqb_eq).
  rewrite (list_eqb_eq _ OperandVersion_eqb_eq).
  rewrite (list_eqb_eq _ ObjectReference_eqb_eq).
  tauto.
Qed.

Lemma Semantic_DeepEqual_refl (a : ClusterOperatorStatus.t) :
  Semantic_DeepEqual a a = true.
Proof. apply Semantic_DeepEqual_iff. repeat split. Qed.

(** ** The version comparator *)

(** C4, as amended: the comparator answers with the negation of
    [reflect.DeepEqual].  Given the record that get-or-create returns, it
    reports no difference exactly when the desired and the observed slice
    are both nil, or both non-nil with the same elements in the same order;
    any difference in length, order, name or version string is a
    difference, and so is a nil slice against an empty one. *)
Theorem IsDifferentVersions_not_deep_equal
    (desired : slice OperandVersion.t) (w : World)
    (co : ClusterOperator.t) (w1 : World) :
  GetOrCreateClusterOperator w = ((co, None), w1) ->
  exists differs,
    IsDifferentVersions desired w = ((differs, None), w1)
    /\ (differs = false <->
        desired = ClusterOperatorStatus.Versions (ClusterOperator.Status co))
    /\ (differs = false ->
        sameElements desired
          (ClusterOperatorStatus.Versions (ClusterOperator.Status co)))
    /\ (forall l1 l2,
          desired = Some l1 ->
          ClusterOperatorStatus.Versions (ClusterOperator.Status co) = Some l2 ->
          (differs = false <-> l1 = l2)).
Proof.
  intros Hget.
  exists (negb (reflect_DeepEqual desired
            (ClusterOperatorStatus.Versions (ClusterOperator.Status co)))).
  assert (Hiff : negb (reflect_DeepEqual desired
            (ClusterOperatorStatus.Versions (ClusterOperator.Status co)))
          = false <->
          desired = ClusterOperatorStatus.Versions (ClusterOperator.Status co)).
  { rewrite negb_false_iff. apply reflect_DeepEqual_eq. }
  split; [|split; [exact Hiff|split]].
  - unfold IsDifferentVersions, bind. rewrite Hget. reflexivity.
  - intros H. apply Hiff in H. unfold sameElements. rewrite H. reflexivity.
  - intros l1 l2 H1 H2. rewrite Hiff, H1, H2. split; congruence.
Qed.

(** An error of get-or-create is the comparator's error, with [false]. *)
Lemma IsDifferentVersions_error
    (desired : slice OperandVersion.t) (w : World)
    (co : ClusterOperator.t) (e : error) (w1 : World) :
  GetOrCreateClusterOperator w = ((co, Some e), w1) ->
  IsDifferentVersions desired w = ((false, Some e), w1).
Proof. intros H. unfold IsDifferentVersions, bind. rewrite H. reflexivity. Qed.

(** ** The dependency health check *)

Lemma PresentAndEqual_first (l : list ClusterOperatorStatusCondition.t)
    (t s : string) :
  IsOperatorStatusConditionPresentAndEqual l t s = true <->
  exists c,
    List.find (fun c => String.eqb (ClusterOperatorStatusCondition.Type_ c) t) l
      = Some c
    /\ ClusterOperatorStatusCondition.Status c = s.
Proof.
  induction l as [|c l IH]; simpl.
  - split; [discriminate | intros (c & H & _); discriminate].
  - destruct (String.eqb (ClusterOperatorStatusCondition.Type_ c) t).
    + rewrite String.eqb_eq. split.
      * intros H. exists c. split; [reflexivity | exact H].
      * intros (c' & H & Hs). injection H as <-. exact Hs.
    + exact IH.
Qed.

(** C3, as amended: a fetch failure of the machine-api record, not-found
    included, is returned as the error; a fetched record is healthy exactly
    when the first condition of type Available in its list has status True
    and the first condition of type Failing has status False, and is
    otherwise reported as not healthy without an error. *)
Theorem CheckMachineAPI_first_conditions
    (w : World) (mao : ClusterOperator.t) (err : option error) (w1 : World) :
  client_Get "machine-api" w = ((mao, err), w1) ->
  match err with
  | Some e => CheckMachineAPI w = ((false, Some e), w1)
  | None =>
      let conds :=
        ClusterOperatorStatus.Conditions (ClusterOperator.Status mao) in
      exists healthy,
        CheckMachineAPI w = ((healthy, None), w1)
        /\ (healthy = true <->
            firstHasStatus conds OperatorAvailable ConditionTrue
            /\ firstHasStatus conds OperatorFailing ConditionFalse)
  end.
Proof.
  intros Hget. unfold CheckMachineAPI, bind. rewrite Hget.
  destruct err as [e|]; [reflexivity|]. cbv beta iota zeta.
  set (conds := ClusterOperatorStatus.Conditions (ClusterOperator.Status mao)).
  exists (IsOperatorStatusConditionTrue conds OperatorAvailable
          && IsOperatorStatusConditionFalse conds OperatorFailing).
  split.
  - destruct (IsOperatorStatusConditionTrue conds OperatorAvailable
              && IsOperatorStatusConditionFalse conds OperatorFailing);
      reflexivity.
  - rewrite andb_true_iff.
    unfold IsOperatorStatusConditionTrue, IsOperatorStatusConditionFalse.
    rewrite !PresentAndEqual_first. reflexivity.
Qed.

(** Where every type occurs at most once in the list, the first condition
    of a type is the only one, and the two readings of "present" agree. *)
Lemma firstHasStatus_present
    (conds : slice ClusterOperatorStatusCondition.t) (t s : string) :
  firstHasStatus conds t s -> present conds t s.
Proof.
  intros (c & Hfind & Hs). unfold firstOfType in Hfind.
  apply List.find_some in Hfind as [Hin Ht].
  apply String.eqb_eq in Ht. exists c. auto.
Qed.

Lemma present_firstHasStatus
    (conds : slice ClusterOperatorStatusCondition.t) (t s : string) :
  NoDup (map ClusterOperatorStatusCondition.Type_ (elems conds)) ->
  present conds t s -> firstHasStatus conds t s.
Proof.
  unfold present, firstHasStatus, firstOfType.
  generalize (elems conds) as l. clear conds.
  induction l as [|x l IH]; intros Hnd (c & Hin & Ht & Hs).
  - destruct Hin.
  - simpl in Hnd. apply NoDup_cons in Hnd as [Hx Hnd]. simpl.
    destruct (String.eqb_spec (ClusterOperatorStatusCondition.Type_ x) t)
      as [Hxt|Hxt].
    + destruct Hin as [->|Hin]; [exists c; auto|].
      exfalso. apply Hx. rewrite Hxt, <- Ht.
      apply list_elem_of_In, in_map, Hin.
    + destruct Hin as [->|Hin]; [contradiction|].
      apply IH; [exact Hnd|]. exists c. auto.
Qed.

(** ** Get-or-create *)

Lemma client_Create_success (obj created : ClusterOperator.t) (w w' : World) :
  client_Create obj w = ((created, None), w') ->
  created = obj
  /\ objects w' !! ClusterOperator.Name obj = Some (ClusterOperator.Status obj).
Proof.
  unfold client_Create, bind, compose, nextFault, ret.
  destruct (faults (record (ActCreate obj) w)) as [|[e|] fs];
    cbv beta iota zeta; try discriminate.
  - destruct (objects (record (ActCreate obj) w) !! ClusterOperator.Name obj);
      [discriminate|].
    intros H. injection H as <- <-. split; [reflexivity|].
    apply lookup_insert_eq.
  - destruct (objects (set_faults fs (record (ActCreate obj) w))
                !! ClusterOperator.Name obj); [discriminate|].
    intros H. injection H as <- <-. split; [reflexivity|].
    apply lookup_insert_eq.
Qed.

(** C8: get-or-create fetches the record by the fixed name of the
    operator.  A record that is found is returned; on a not-found error the
    answer is that of creating an empty record of that name, which, when the
    creation succeeds, is the record returned and stored; any other error of
    the fetch is returned as it is. *)
Theorem GetOrCreateClusterOperator_fetch_or_create
    (w : World) (existing : ClusterOperator.t) (err : option error)
    (w1 : World) :
  client_Get OperatorName w = ((existing, err), w1) ->
  (err = None -> GetOrCreateClusterOperator w = ((existing, None), w1))
  /\ (IsNotFound err = true ->
      GetOrCreateClusterOperator w
        = client_Create
            (ClusterOperator.mk OperatorName ClusterOperatorStatus.zero) w1
      /\ forall created w2,
           GetOrCreateClusterOperator w = ((created, None), w2) ->
           created = ClusterOperator.mk OperatorName ClusterOperatorStatus.zero
           /\ objects w2 !! OperatorName = Some ClusterOperatorStatus.zero)
  /\ (forall e, err = Some e -> IsNotFound err = false ->
      GetOrCreateClusterOperator w = ((existing, Some e), w1)).
Proof.
  intros Hget. unfold GetOrCreateClusterOperator, bind. rewrite Hget.
  split; [|split].
  - intros ->. reflexivity.
  - intros ->. split; [reflexivity|].
    intros created w2 Hc. apply client_Create_success in Hc. exact Hc.
  - intros e -> ->. reflexivity.
Qed.

(** ** What reading the clock and building a status leave alone *)

Lemma sameStore_refl (w : World) : sameStore w w.
Proof. repeat split. Qed.

Lemma sameStore_trans (w1 w2 w3 : World) :
  sameStore w1 w2 -> sameStore w2 w3 -> sameStore w1 w3.
Proof.
  intros (Ho & Hf & Ha) (Ho' & Hf' & Ha'). repeat split; congruence.
Qed.

Lemma time_Now_sameStore (w : World) : sameStore w (snd (time_Now w)).
Proof.
  unfold time_Now. destruct (clock w); simpl; repeat split.
Qed.

Lemma SetOperatorStatusCondition_sameStore
    (conditions : slice ClusterOperatorStatusCondition.t)
    (c : ClusterOperatorStatusCondition.t) (w : World) :
  sameStore w (snd (SetOperatorStatusCondition conditions c w)).
Proof.
  unfold SetOperatorStatusCondition, bind, ret.
  destruct (FindOperatorStatusCondition _ _) as [i|].
  - destruct (elems conditions !! i) as [existing|];
      [|apply sameStore_refl].
    destruct (String.eqb _ _); [apply sameStore_refl|].
    pose proof (time_Now_sameStore w) as H.
    destruct (time_Now w) as [t w']. exact H.
  - pose proof (time_Now_sameStore w) as H.
    destruct (time_Now w) as [t w']. exact H.
Qed.

Lemma forRange_sameStore {A S : Type} (body : S -> A -> M S) :
  (forall s x w, sameStore w (snd (body s x w))) ->
  forall l s w, sameStore w (snd (forRange l body s w)).
Proof.
  intros Hbody l. induction l as [|x l IH]; intros s w; simpl.
  - apply sameStore_refl.
  - unfold bind. pose proof (Hbody s x w) as H1.
    destruct (body s x w) as [s' w']. simpl in H1.
    eapply sameStore_trans; [exact H1 | apply IH].
Qed.

Lemma buildStatus_sameStore (r : StatusReporter)
    (conds : slice ClusterOperatorStatusCondition.t) (w : World) :
  sameStore w (snd (buildStatus r conds w)).
Proof.
  unfold buildStatus, bind, ret.
  pose proof (forRange_sameStore SetOperatorStatusCondition
                SetOperatorStatusCondition_sameStore (elems conds) None w)
    as H.
  simpl. destruct (forRange _ _ _ w) as [cs w']. exact H.
Qed.

Lemma buildStatus_fields (r : StatusReporter)
    (conds : slice ClusterOperatorStatusCondition.t) (w : World) :
  let status := fst (buildStatus r conds w) in
  ClusterOperatorStatus.Versions status
    = Some [OperandVersion.mk "cluster-autoscaler" Raw]
  /\ ClusterOperatorStatus.RelatedObjects status = relatedObjects r
  /\ ClusterOperatorStatus.Extension status = "".
Proof.
  unfold buildStatus, bind, ret. simpl.
  destruct (forRange _ _ _ w) as [cs w']. repeat split.
Qed.

(** Three conditions of three different types are appended one after the
    other: the candidate status has them in the order given, each with a
    transition time read from the clock. *)
Lemma buildStatus_shapes (r : StatusReporter)
    (c1 c2 c3 : ClusterOperatorStatusCondition.t) (w : World) :
  ClusterOperatorStatusCondition.Type_ c1
    <> ClusterOperatorStatusCondition.Type_ c2 ->
  ClusterOperatorStatusCondition.Type_ c1
    <> ClusterOperatorStatusCondition.Type_ c3 ->
  ClusterOperatorStatusCondition.Type_ c2
    <> ClusterOperatorStatusCondition.Type_ c3 ->
  shapes (fst (buildStatus r (Some [c1; c2; c3]) w))
    = [shape c1; shape c2; shape c3].
Proof.
  intros H12 H13 H23.
  apply String.eqb_neq in H12, H13, H23.
  unfold shapes, buildStatus, bind, ret. simpl.
  unfold SetOperatorStatusCondition at 1. simpl. unfold bind, ret.
  destruct (time_Now w) as [t1 w1].
  unfold SetOperatorStatusCondition at 1. simpl. rewrite H12. simpl.
  unfold bind, ret. destruct (time_Now w1) as [t2 w2].
  unfold SetOperatorStatusCondition at 1. simpl. rewrite H13, H23. simpl.
  unfold bind, ret. destruct (time_Now w2) as [t3 w3].
  reflexivity.
Qed.

(** ** The requests each operation issues *)

Lemma client_Get_actions (name : string) (w : World) :
  actions (snd (client_Get name w)) = ActGet name :: actions w.
Proof.
  unfold client_Get, bind, compose, nextFault, ret.
  destruct (faults (record (ActGet name) w)) as [|[e|] fs];
    cbv beta iota zeta; try reflexivity.
  - destruct (objects (record (ActGet name) w) !! name); reflexivity.
  - destruct (objects (set_faults fs (record (ActGet name) w)) !! name);
      reflexivity.
Qed.

Lemma client_Create_actions (obj : ClusterOperator.t) (w : World) :
  actions (snd (client_Create obj w)) = ActCreate obj :: actions w.
Proof.
  unfold client_Create, bind, compose, nextFault, ret.
  destruct (faults (record (ActCreate obj) w)) as [|[e|] fs];
    cbv beta iota zeta; try reflexivity.
  - destruct (objects (record (ActCreate obj) w) !! ClusterOperator.Name obj);
      reflexivity.
  - destruct (objects (set_faults fs (record (ActCreate obj) w))
                !! ClusterOperator.Name obj); reflexivity.
Qed.

Lemma client_UpdateStatus_actions (obj : ClusterOperator.t) (w : World) :
  actions (snd (client_UpdateStatus obj w)) = ActUpdateStatus obj :: actions w.
Proof.
  unfold client_UpdateStatus, bind, compose, nextFault, ret.
  destruct (faults (record (ActUpdateStatus obj) w)) as [|[e|] fs];
    cbv beta iota zeta; try reflexivity.
  - destruct (objects (record (ActUpdateStatus obj) w)
                !! ClusterOperator.Name obj); reflexivity.
  - destruct (objects (set_faults fs (record (ActUpdateStatus obj) w))
                !! ClusterOperator.Name obj); reflexivity.
Qed.

(** Get-or-create issues a fetch, and a creation after a not-found answer;
    it never writes a status. *)
Lemma GetOrCreateClusterOperator_actions (w : World) :
  let w' := snd (GetOrCreateClusterOperator w) in
  actions w' = ActGet OperatorName :: actions w
  \/ actions w'
     = ActCreate (ClusterOperator.mk OperatorName ClusterOperatorStatus.zero)
       :: ActGet OperatorName :: actions w.
Proof.
  unfold GetOrCreateClusterOperator, bind.
  pose proof (client_Get_actions OperatorName w) as Hg.
  destruct (client_Get OperatorName w) as [[existing err] w1].
  simpl in Hg. destruct (IsNotFound err).
  - right. rewrite client_Create_actions, Hg. reflexivity.
  - left. exact Hg.
Qed.

Lemma GetOrCreateClusterOperator_updates (w : World) :
  updates (snd (GetOrCreateClusterOperator w)) = updates w.
Proof.
  unfold updates.
  destruct (GetOrCreateClusterOperator_actions w) as [H|H];
    cbv zeta in H; rewrite H; reflexivity.
Qed.

Lemma buildStatus_updates (r : StatusReporter)
    (conds : slice ClusterOperatorStatusCondition.t) (w : World) :
  updates (snd (buildStatus r conds w)) = updates w.
Proof.
  unfold updates.
  destruct (buildStatus_sameStore r conds w) as (_ & _ & ->). reflexivity.
Qed.

(** ** Applying conditions *)

(** The run of [ApplyConditions], step by step. *)
Lemma ApplyConditions_steps (r : StatusReporter)
    (conds : slice ClusterOperatorStatusCondition.t) (w : World) :
  ApplyConditions r conds w =
  let '(status, w1) := buildStatus r conds w in
  let '((co, err), w2) := GetOrCreateClusterOperator w1 in
  match err with
  | Some e => (Some e, w2)
  | None =>
      if Semantic_DeepEqual (ClusterOperator.Status co) status
      then (None, w2)
      else
        let '((_, err'), w3) :=
          client_UpdateStatus
            (ClusterOperator.mk (ClusterOperator.Name co) status) w2 in
        (err', w3)
  end.
Proof.
  unfold ApplyConditions, bind, ret.
  destruct (buildStatus r conds w) as [status w1].
  destruct (GetOrCreateClusterOperator w1) as [[co [e|]] w2];
    [reflexivity|].
  destruct (Semantic_DeepEqual _ _); simpl; [reflexivity|].
  destruct (client_UpdateStatus _ w2) as [[o err'] w3]. reflexivity.
Qed.

(** X12: no status is written when the candidate is semantically equal to
    the status of the record that get-or-create returned: the run ends with
    a nil error after the fetch. *)
Lemma ApplyConditions_equal_no_write (r : StatusReporter)
    (conds : slice ClusterOperatorStatusCondition.t) (w : World)
    (status : ClusterOperatorStatus.t) (w1 : World)
    (co : ClusterOperator.t) (w2 : World) :
  buildStatus r conds w = (status, w1) ->
  GetOrCreateClusterOperator w1 = ((co, None), w2) ->
  Semantic_DeepEqual (ClusterOperator.Status co) status = true ->
  ApplyConditions r conds w = (None, w2) /\ updates w2 = updates w.
Proof.
  intros Hb Hg Heq. rewrite ApplyConditions_steps, Hb, Hg, Heq.
  split; [reflexivity|].
  pose proof (GetOrCreateClusterOperator_updates w1) as H1.
  pose proof (buildStatus_updates r conds w) as H2.
  rewrite Hg in H1. rewrite Hb in H2. simpl in H1, H2. congruence.
Qed.

(** Every status write that a run of [ApplyConditions] issues carries the
    candidate status that the run built. *)
Lemma ApplyConditions_writes_candidate (r : StatusReporter)
    (conds : slice ClusterOperatorStatusCondition.t) (w : World)
    (obj : ClusterOperator.t) :
  In (ActUpdateStatus obj) (actions (snd (ApplyConditions r conds w))) ->
  In (ActUpdateStatus obj) (actions w)
  \/ ClusterOperator.Status obj = fst (buildStatus r conds w).
Proof.
  rewrite ApplyConditions_steps.
  pose proof (buildStatus_sameStore r conds w) as (_ & _ & Ha).
  destruct (buildStatus r conds w) as [status w1]. simpl in Ha.
  pose proof (GetOrCreateClusterOperator_actions w1) as Hg.
  destruct (GetOrCreateClusterOperator w1) as [[co err] w2].
  cbv zeta in Hg. simpl in Hg. rewrite Ha in Hg.
  assert (Hold : In (ActUpdateStatus obj) (actions w2) ->
                 In (ActUpdateStatus obj) (actions w)).
  { destruct Hg as [-> | ->]; simpl; intros H.
    - destruct H as [H|H]; [discriminate | exact H].
    - destruct H as [H|[H|H]]; [discriminate | discriminate | exact H]. }
  destruct err as [e|]; simpl; [intros H; left; auto|].
  destruct (Semantic_DeepEqual _ _); simpl; [intros H; left; auto|].
  pose proof (client_UpdateStatus_actions
                (ClusterOperator.mk (ClusterOperator.Name co) status) w2) as Hu.
  destruct (client_UpdateStatus _ w2) as [[o err'] w3]. simpl in Hu |- *.
  rewrite Hu. simpl. intros [H|H].
  - right. injection H as <-. reflexivity.
  - left. auto.
Qed.

(** ** The condition synthesizers *)

Lemma conditionTypes_shapes (status : ClusterOperatorStatus.t) :
  conditionTypes status = map (fun s => s.1.1.1) (shapes status).
Proof.
  unfold conditionTypes, shapes. rewrite map_map. reflexivity.
Qed.

Lemma Available_candidate (r : StatusReporter) (reason message : string)
    (w : World) :
  shapes (fst (buildStatus r (Available_conditions reason message) w))
  = [(OperatorAvailable, ConditionTrue, reason, message);
     (OperatorProgressing, ConditionFalse, "", "");
     (OperatorFailing, ConditionFalse, "", "")].
Proof.
  unfold Available_conditions. rewrite buildStatus_shapes by discriminate.
  reflexivity.
Qed.

Lemma Fail_candidate (r : StatusReporter) (reason message : string)
    (w : World) :
  shapes (fst (buildStatus r (Fail_conditions reason message) w))
  = [(OperatorAvailable, ConditionTrue, "", "");
     (OperatorProgressing, ConditionFalse, "", "");
     (OperatorFailing, ConditionTrue, reason, message)].
Proof.
  unfold Fail_conditions. rewrite buildStatus_shapes by discriminate.
  reflexivity.
Qed.

Lemma Progressing_candidate (r : StatusReporter) (reason message : string)
    (w : World) :
  shapes (fst (buildStatus r (Progressing_conditions reason message) w))
  = [(OperatorAvailable, ConditionTrue, "", "");
     (OperatorProgressing, ConditionTrue, reason, message);
     (OperatorFailing, ConditionFalse, "", "")].
Proof.
  unfold Progressing_conditions. rewrite buildStatus_shapes by discriminate.
  reflexivity.
Qed.

(** C9: the status that [Available], [Fail] and [Progressing] synthesize
    has exactly three conditions, one of each of the types Available,
    Progressing and Failing; and every status these three write to the store
    is such a status. *)
Theorem synthesized_status_one_condition_per_type
    (r : StatusReporter) (reason message : string) (w : World) :
  let three := [OperatorAvailable; OperatorProgressing; OperatorFailing] in
  conditionTypes
    (fst (buildStatus r (Available_conditions reason message) w)) = three
  /\ conditionTypes
    (fst (buildStatus r (Fail_conditions reason message) w)) = three
  /\ conditionTypes
    (fst (buildStatus r (Progressing_conditions reason message) w)) = three
  /\ forall obj,
       In (ActUpdateStatus obj)
          (actions (snd (Available r reason message w)))
       \/ In (ActUpdateStatus obj)
          (actions (snd (Fail r reason message w)))
       \/ In (ActUpdateStatus obj)
          (actions (snd (Progressing r reason message w))) ->
       In (ActUpdateStatus obj) (actions w)
       \/ conditionTypes (ClusterOperator.Status obj) = three.
Proof.
  cbv zeta.
  assert (Ha : conditionTypes
            (fst (buildStatus r (Available_conditions reason message) w))
          = [OperatorAvailable; OperatorProgressing; OperatorFailing]).
  { rewrite conditionTypes_shapes, Available_candidate. reflexivity. }
  assert (Hf : conditionTypes
            (fst (buildStatus r (Fail_conditions reason message) w))
          = [OperatorAvailable; OperatorProgressing; OperatorFailing]).
  { rewrite conditionTypes_shapes, Fail_candidate. reflexivity. }
  assert (Hp : conditionTypes
            (fst (buildStatus r (Progressing_conditions reason message) w))
          = [OperatorAvailable; OperatorProgressing; OperatorFailing]).
  { rewrite conditionTypes_shapes, Progressing_candidate. reflexivity. }
  repeat split; try assumption.
  intros obj [H|[H|H]];
    apply ApplyConditions_writes_candidate in H as [H|H]; auto;
    right; rewrite H; assumption.
Qed.

(** ** One tick of the poll *)

(** The condition function never returns an error. *)
Lemma pollFunc_nil_error (r : StatusReporter) (w : World) :
  snd (fst (pollFunc r w)) = None.
Proof.
  unfold pollFunc, bind, ret.
  destruct (CheckMachineAPI w) as [[ok [e|]] w1].
  - destruct (Fail _ _ _ w1). reflexivity.
  - destruct ok.
    + destruct (IsDifferentVersions _ w1) as [[isProgress [e2|]] w2].
      * destruct (Fail _ _ _ w2). reflexivity.
      * destruct isProgress.
        -- destruct (Progressing _ _ _ w2). reflexivity.
        -- destruct (Available _ _ _ w2). reflexivity.
    + destruct (Fail _ _ _ w1). reflexivity.
Qed.

Lemma elems_singleton {A : Type} (s : slice A) (x : A) :
  elems s = [x] -> s = Some [x].
Proof. destruct s as [l|]; simpl; [intros ->; reflexivity | discriminate]. Qed.

(** On the healthy path the tick asks the comparator about the desired
    versions; the record read is the one get-or-create returns. *)
Lemma pollFunc_healthy (r : StatusReporter) (w w1 : World)
    (co : ClusterOperator.t) (w2 : World) :
  CheckMachineAPI w = ((true, None), w1) ->
  GetOrCreateClusterOperator w1 = ((co, None), w2) ->
  pollFunc r w =
  if reflect_DeepEqual desiredVersions
       (ClusterOperatorStatus.Versions (ClusterOperator.Status co))
  then ((true, None), snd (Available r ReasonEmpty "" w2))
  else ((false, None),
        snd (Progressing r ReasonSyncing
               ("Syncing to version " +:+ printOperandVersions desiredVersions)
               w2)).
Proof.
  intros Hcheck Hget.
  unfold pollFunc, bind, ret. rewrite Hcheck.
  unfold IsDifferentVersions, bind, ret. rewrite Hget.
  destruct (reflect_DeepEqual _ _); simpl.
  - destruct (Available _ _ _ w2). reflexivity.
  - destruct (Progressing _ _ _ w2). reflexivity.
Qed.

(** A call of the condition that returns done ends the poll with a nil
    error, at once or at any later tick. *)
Lemma PollImmediateUntil_done (fn : M (bool * option error))
    (stopCh : Schedule) (w w' : World) :
  fn w = ((true, None), w') ->
  PollImmediateUntil fn stopCh w = (None, w').
Proof.
  intros H. unfold PollImmediateUntil, bind, ret. rewrite H. reflexivity.
Qed.

Lemma WaitFor_done (fn : M (bool * option error))
    (env : World -> World) (rest : Schedule) (w w' : World) :
  fn (env w) = ((true, None), w') ->
  WaitFor fn (Tick env rest) w = (None, w')
  /\ WaitFor fn (LastCall env) w = (None, w').
Proof. intros H. simpl. rewrite H. split; reflexivity. Qed.

(** ** The message of the Progressing state *)

Lemma string_app_assoc (a b c : string) : (a +:+ b) +:+ c = a +:+ (b +:+ c).
Proof.
  induction a as [|x a IH]; [reflexivity|].
  change (String x ((a +:+ b) +:+ c) = String x (a +:+ (b +:+ c))).
  rewrite IH. reflexivity.
Qed.

Lemma Join_fold_prefix (sep : string) (rest : list string) (p e : string) :
  fold_left (fun b s => b +:+ sep +:+ s) rest (p +:+ e)
  = p +:+ fold_left (fun b s => b +:+ sep +:+ s) rest e.
Proof.
  revert e. induction rest as [|x rest IH]; intros e; cbn [fold_left];
    [reflexivity|].
  rewrite string_app_assoc. apply IH.
Qed.

Lemma strings_Join_joined (sep : string) (l : list string) :
  strings_Join l sep = joined sep l.
Proof.
  destruct l as [|e rest]; [reflexivity|]. simpl.
  revert e. induction rest as [|x rest IH]; intros e; [reflexivity|].
  simpl fold_left. rewrite !Join_fold_prefix, IH. reflexivity.
Qed.

Lemma versionsOutput_map (l : list OperandVersion.t) (acc : list string) :
  fold_left
    (fun out operand =>
       out ++ [OperandVersion.Name operand +:+ ": "
               +:+ OperandVersion.Version operand]) l acc
  = acc ++ map rendered l.
Proof.
  revert acc. induction l as [|x l IH]; intros acc; simpl.
  - rewrite app_nil_r. reflexivity.
  - rewrite IH, <- app_assoc. reflexivity.
Qed.

(** The operands are rendered as "name: version" and joined by ", ", in
    the order of the list. *)
Lemma printOperandVersions_joined (desired : slice OperandVersion.t) :
  printOperandVersions desired = joined ", " (map rendered (elems desired)).
Proof.
  unfold printOperandVersions.
  rewrite versionsOutput_map, strings_Join_joined. reflexivity.
Qed.

(** ** What a successful write leaves in the store *)

Lemma client_Get_success (name : string) (co : ClusterOperator.t)
    (w w' : World) :
  client_Get name w = ((co, None), w') ->
  ClusterOperator.Name co = name
  /\ objects w' !! name = Some (ClusterOperator.Status co).
Proof.
  unfold client_Get, bind, compose, nextFault, ret.
  destruct (faults (record (ActGet name) w)) as [|[e|] fs];
    cbv beta iota zeta; try discriminate.
  - destruct (objects (record (ActGet name) w) !! name) eqn:Hl;
      [|discriminate].
    intros H. injection H as <- <-. split; [reflexivity | exact Hl].
  - destruct (objects (set_faults fs (record (ActGet name) w)) !! name) eqn:Hl;
      [|discriminate].
    intros H. injection H as <- <-. split; [reflexivity | exact Hl].
Qed.

Lemma client_UpdateStatus_success (obj o : ClusterOperator.t) (w w' : World) :
  client_UpdateStatus obj w = ((o, None), w') ->
  objects w' !! ClusterOperator.Name obj = Some (ClusterOperator.Status obj).
Proof.
  unfold client_UpdateStatus, bind, compose, nextFault, ret.
  destruct (faults (record (ActUpdateStatus obj) w)) as [|[e|] fs];
    cbv beta iota zeta; try discriminate.
  - destruct (objects (record (ActUpdateStatus obj) w)
                !! ClusterOperator.Name obj); [|discriminate].
    intros H. injection H as <- <-. apply lookup_insert_eq.
  - destruct (objects (set_faults fs (record (ActUpdateStatus obj) w))
                !! ClusterOperator.Name obj); [|discriminate].
    intros H. injection H as <- <-. apply lookup_insert_eq.
Qed.

(** The record that get-or-create returns without an error has the name of
    the operator and is the one in the store. *)
Lemma GetOrCreateClusterOperator_success (w : World)
    (co : ClusterOperator.t) (w' : World) :
  GetOrCreateClusterOperator w = ((co, None), w') ->
  ClusterOperator.Name co = OperatorName
  /\ objects w' !! OperatorName = Some (ClusterOperator.Status co).
Proof.
  unfold GetOrCreateClusterOperator, bind, ret.
  destruct (client_Get OperatorName w) as [[existing err] w1] eqn:Hget.
  destruct (IsNotFound err) eqn:Hnf.
  - intros Hc. apply client_Create_success in Hc as [-> Hl]. auto.
  - intros H. injection H as -> -> ->.
    apply client_Get_success in Hget. exact Hget.
Qed.



(** ** The outcome of the poll *)

Lemma WaitFor_outcome (fn : M (bool * option error)) :
  (forall w, snd (fst (fn w)) = None) ->
  forall s w,
    fst (WaitFor fn s w)
    = if doneInWait fn s w then None else Some ErrWaitTimeout.
Proof.
  intros Hfn s. induction s as [|env|env rest IH]; intros w; simpl.
  - reflexivity.
  - pose proof (Hfn (env w)) as He.
    destruct (fn (env w)) as [[ok err] w']. simpl in He |- *. subst err.
    destruct ok; reflexivity.
  - pose proof (Hfn (env w)) as He.
    destruct (fn (env w)) as [[ok err] w']. simpl in He |- *. subst err.
    destruct ok; [reflexivity | apply IH].
Qed.

(** C1, as amended: [Report] returns a nil error exactly when some tick of
    the run returned done, that is, when the Available state was reached.
    In every other run, which is one whose stop channel was closed before
    that, it returns the timeout error of the wait package: the
    cancellation reaches the caller as [ErrWaitTimeout]. *)
Theorem Report_nil_only_when_done
    (r : StatusReporter) (stopCh : Schedule) (w : World) :
  fst (Report r stopCh w)
  = (if doneInPoll (pollFunc r) stopCh w then None else Some ErrWaitTimeout)
  /\ (fst (Report r stopCh w) = None
      <-> doneInPoll (pollFunc r) stopCh w = true).
Proof.
  assert (H : fst (Report r stopCh w)
              = if doneInPoll (pollFunc r) stopCh w
                then None else Some ErrWaitTimeout).
  { unfold Report, PollImmediateUntil, doneInPoll, bind, ret.
    pose proof (pollFunc_nil_error r w) as He.
    destruct (pollFunc r w) as [[ok err] w1]. simpl in He. subst err.
    destruct ok; [reflexivity|]. simpl.
    apply WaitFor_outcome. apply pollFunc_nil_error. }
  split; [exact H|]. rewrite H.
  destruct (doneInPoll (pollFunc r) stopCh w); split; try reflexivity;
    discriminate.
Qed.

(** ** Applying the same conditions twice *)

Lemma ret_readsClockOnly {A : Type} (a : A) : readsClockOnly (ret a).
Proof. intros w _. split; [reflexivity | intros; reflexivity]. Qed.

Lemma bind_readsClockOnly {A B : Type} (c : M A) (k : A -> M B) :
  readsClockOnly c -> (forall a, readsClockOnly (k a)) ->
  readsClockOnly (bind c k).
Proof.
  intros Hc Hk w Hw. unfold bind.
  destruct (Hc w Hw) as [Hc1 Hc2].
  destruct (c w) as [a w1] eqn:Hcw. simpl in Hc1. subst w1.
  destruct (Hk a w Hw) as [Hk1 Hk2]. split; [exact Hk1|].
  intros w' Hw' Hnow.
  pose proof (Hc2 w' Hw' Hnow) as Ha.
  destruct (Hc w' Hw') as [Hc1' _].
  destruct (c w') as [a' w1'] eqn:Hcw'. simpl in Ha, Hc1'. subst a' w1'.
  apply Hk2; assumption.
Qed.

Lemma time_Now_readsClockOnly : readsClockOnly time_Now.
Proof.
  intros w Hw. unfold time_Now. rewrite Hw. split; [reflexivity|].
  intros w' Hw' Hnow. rewrite Hw'. exact Hnow.
Qed.

Lemma SetOperatorStatusCondition_readsClockOnly
    (conditions : slice ClusterOperatorStatusCondition.t)
    (c : ClusterOperatorStatusCondition.t) :
  readsClockOnly (SetOperatorStatusCondition conditions c).
Proof.
  unfold SetOperatorStatusCondition.
  destruct (FindOperatorStatusCondition _ _) as [i|].
  - destruct (elems conditions !! i) as [existing|];
      [|apply ret_readsClockOnly].
    destruct (String.eqb _ _); [apply ret_readsClockOnly|].
    apply bind_readsClockOnly; [apply time_Now_readsClockOnly|].
    intros t. apply ret_readsClockOnly.
  - apply bind_readsClockOnly; [apply time_Now_readsClockOnly|].
    intros t. apply ret_readsClockOnly.
Qed.

Lemma forRange_readsClockOnly {A S : Type} (body : S -> A -> M S) :
  (forall s x, readsClockOnly (body s x)) ->
  forall l s, readsClockOnly (forRange l body s).
Proof.
  intros Hbody l. induction l as [|x l IH]; intros s; simpl.
  - apply ret_readsClockOnly.
  - apply bind_readsClockOnly; [apply Hbody | intros s'; apply IH].
Qed.

Lemma buildStatus_readsClockOnly (r : StatusReporter)
    (conds : slice ClusterOperatorStatusCondition.t) :
  readsClockOnly (buildStatus r conds).
Proof.
  unfold buildStatus. apply bind_readsClockOnly.
  - apply forRange_readsClockOnly.
    apply SetOperatorStatusCondition_readsClockOnly.
  - intros cs. apply ret_readsClockOnly.
Qed.

(** The client against a store that answers every request. *)
Lemma client_Get_no_faults (name : string) (w : World) :
  faults w = [] ->
  client_Get name w
  = (match objects w !! name with
     | Some status => (ClusterOperator.mk name status, None)
     | None => (ClusterOperator.zero, Some (NewNotFound name))
     end, record (ActGet name) w).
Proof.
  intros Hf. unfold client_Get, bind, compose, nextFault, ret.
  change (faults (record (ActGet name) w)) with (faults w). rewrite Hf.
  cbv beta iota.
  change (objects (record (ActGet name) w)) with (objects w).
  destruct (objects w !! name); reflexivity.
Qed.

Lemma client_Create_no_faults (obj : ClusterOperator.t) (w : World) :
  faults w = [] ->
  objects w !! ClusterOperator.Name obj = None ->
  client_Create obj w
  = ((obj, None),
     set_objects
       (<[ClusterOperator.Name obj := ClusterOperator.Status obj]> (objects w))
       (record (ActCreate obj) w)).
Proof.
  intros Hf Hl. unfold client_Create, bind, compose, nextFault, ret.
  change (faults (record (ActCreate obj) w)) with (faults w). rewrite Hf.
  cbv beta iota zeta.
  change (objects (record (ActCreate obj) w)) with (objects w).
  rewrite Hl. reflexivity.
Qed.

Lemma client_UpdateStatus_no_faults (obj : ClusterOperator.t) (w : World) :
  faults w = [] ->
  is_Some (objects w !! ClusterOperator.Name obj) ->
  client_UpdateStatus obj w
  = ((obj, None),
     set_objects
       (<[ClusterOperator.Name obj := ClusterOperator.Status obj]> (objects w))
       (record (ActUpdateStatus obj) w)).
Proof.
  intros Hf [stored Hl].
  unfold client_UpdateStatus, bind, compose, nextFault, ret.
  change (faults (record (ActUpdateStatus obj) w)) with (faults w).
  rewrite Hf. cbv beta iota zeta.
  change (objects (record (ActUpdateStatus obj) w)) with (objects w).
  rewrite Hl. reflexivity.
Qed.

Lemma GetOrCreateClusterOperator_no_faults (w : World) :
  faults w = [] ->
  exists status w',
    GetOrCreateClusterOperator w
      = ((ClusterOperator.mk OperatorName status, None), w')
    /\ objects w' !! OperatorName = Some status
    /\ faults w' = [] /\ clock w' = clock w /\ now w' = now w.
Proof.
  intros Hf. unfold GetOrCreateClusterOperator, bind, ret.
  rewrite (client_Get_no_faults OperatorName w Hf).
  destruct (objects w !! OperatorName) as [status|] eqn:Hl.
  - exists status. eexists. split; [reflexivity|].
    split; [exact Hl|]. split; [exact Hf|]. split; reflexivity.
  - change (IsNotFound (Some (NewNotFound OperatorName))) with true.
    cbv iota.
    rewrite client_Create_no_faults; [|exact Hf|exact Hl].
    exists ClusterOperatorStatus.zero. eexists. split; [reflexivity|].
    split; [apply lookup_insert_eq|].
    split; [exact Hf|]. split; reflexivity.
Qed.

(** With the clock standing still and a store that answers every request,
    a run of [ApplyConditions] leaves a stored status that is semantically
    equal to its candidate ... *)
Lemma ApplyConditions_settles (r : StatusReporter)
    (conds : slice ClusterOperatorStatusCondition.t) (w : World) :
  clock w = [] -> faults w = [] ->
  let w1 := snd (ApplyConditions r conds w) in
  clock w1 = [] /\ faults w1 = [] /\ now w1 = now w
  /\ exists stored,
       objects w1 !! OperatorName = Some stored
       /\ Semantic_DeepEqual stored (fst (buildStatus r conds w)) = true.
Proof.
  intros Hc Hf. cbv zeta. rewrite ApplyConditions_steps.
  destruct (buildStatus_readsClockOnly r conds w Hc) as [Hb _].
  destruct (buildStatus r conds w) as [status w0]. simpl in Hb |- *.
  subst w0.
  destruct (GetOrCreateClusterOperator_no_faults w Hf)
    as (stored & w2 & Hg & Hl & Hf2 & Hc2 & Hn2).
  rewrite Hg. cbv beta iota. simpl ClusterOperator.Status.
  simpl ClusterOperator.Name.
  destruct (Semantic_DeepEqual stored status) eqn:Heq.
  - simpl. repeat split; try congruence. exists stored. auto.
  - rewrite client_UpdateStatus_no_faults;
      [|exact Hf2|exists stored; exact Hl].
    cbv beta iota.
    split; [exact (eq_trans eq_refl (eq_trans Hc2 Hc))|].
    split; [exact Hf2|]. split; [exact Hn2|].
    exists status. split; [apply lookup_insert_eq|].
    apply Semantic_DeepEqual_refl.
Qed.

(** ... and a run that finds such a status in the store writes nothing. *)
Lemma ApplyConditions_settled (r : StatusReporter)
    (conds : slice ClusterOperatorStatusCondition.t) (w : World)
    (stored : ClusterOperatorStatus.t) :
  clock w = [] -> faults w = [] ->
  objects w !! OperatorName = Some stored ->
  Semantic_DeepEqual stored (fst (buildStatus r conds w)) = true ->
  updates (snd (ApplyConditions r conds w)) = updates w.
Proof.
  intros Hc Hf Hl Heq. rewrite ApplyConditions_steps.
  destruct (buildStatus_readsClockOnly r conds w Hc) as [Hb _].
  destruct (buildStatus r conds w) as [status w0]. simpl in Hb, Heq |- *.
  subst w0.
  unfold GetOrCreateClusterOperator, bind, ret.
  rewrite (client_Get_no_faults OperatorName w Hf), Hl.
  change (IsNotFound None) with false. cbv beta iota.
  simpl ClusterOperator.Status. rewrite Heq. reflexivity.
Qed.

(** X13: as long as the clock stands still and the store answers every
    request, applying the same conditions a second time writes nothing. *)
Lemma ApplyConditions_twice_still_clock (r : StatusReporter)
    (conds : slice ClusterOperatorStatusCondition.t) (w : World) :
  clock w = [] -> faults w = [] ->
  let w1 := snd (ApplyConditions r conds w) in
  updates (snd (ApplyConditions r conds w1)) = updates w1.
Proof.
  intros Hc Hf w1.
  destruct (ApplyConditions_settles r conds w Hc Hf)
    as (Hc1 & Hf1 & Hn1 & stored & Hl & Heq).
  fold w1 in Hc1, Hf1, Hn1, Hl.
  apply (ApplyConditions_settled r conds w1 stored Hc1 Hf1 Hl).
  destruct (buildStatus_readsClockOnly r conds w Hc) as [_ Hsame].
  rewrite (Hsame w1 Hc1 Hn1). exact Heq.
Qed.

(** ** What the requests do to the store *)

Lemma client_Get_world (name : string) (w : World) :
  let w' := snd (client_Get name w) in
  objects w' = objects w /\ clock w' = clock w /\ now w' = now w.
Proof.
  unfold client_Get, bind, compose, nextFault, ret.
  destruct (faults (record (ActGet name) w)) as [|[e|] fs];
    cbv beta iota zeta.
  - destruct (objects (record (ActGet name) w) !! name); repeat split.
  - repeat split.
  - destruct (objects (set_faults fs (record (ActGet name) w)) !! name);
      repeat split.
Qed.

(** A creation either leaves the store as it is, or it succeeds and adds
    the object under a name that was free. *)
Lemma client_Create_objects (obj : ClusterOperator.t) (w : World) :
  let w' := snd (client_Create obj w) in
  objects w' = objects w
  \/ (objects w !! ClusterOperator.Name obj = None
      /\ objects w'
         = <[ClusterOperator.Name obj := ClusterOperator.Status obj]> (objects w)
      /\ fst (client_Create obj w) = (obj, None)).
Proof.
  unfold client_Create, bind, compose, nextFault, ret.
  destruct (faults (record (ActCreate obj) w)) as [|[e|] fs];
    cbv beta iota zeta.
  - change (objects (record (ActCreate obj) w)) with (objects w).
    destruct (objects w !! ClusterOperator.Name obj) eqn:Hl.
    + left. reflexivity.
    + right. repeat split.
  - left. reflexivity.
  - change (objects (set_faults fs (record (ActCreate obj) w)))
      with (objects w).
    destruct (objects w !! ClusterOperator.Name obj) eqn:Hl.
    + left. reflexivity.
    + right. repeat split.
Qed.

(** A status update either leaves the store as it is, or it succeeds and
    overwrites the status stored under the name of the object. *)
Lemma client_UpdateStatus_objects (obj : ClusterOperator.t) (w : World) :
  let w' := snd (client_UpdateStatus obj w) in
  objects w' = objects w
  \/ (objects w'
      = <[ClusterOperator.Name obj := ClusterOperator.Status obj]> (objects w)
      /\ fst (client_UpdateStatus obj w) = (obj, None)).
Proof.
  unfold client_UpdateStatus, bind, compose, nextFault, ret.
  destruct (faults (record (ActUpdateStatus obj) w)) as [|[e|] fs];
    cbv beta iota zeta.
  - change (objects (record (ActUpdateStatus obj) w)) with (objects w).
    destruct (objects w !! ClusterOperator.Name obj) eqn:Hl.
    + right. repeat split.
    + left. reflexivity.
  - left. reflexivity.
  - change (objects (set_faults fs (record (ActUpdateStatus obj) w)))
      with (objects w).
    destruct (objects w !! ClusterOperator.Name obj) eqn:Hl.
    + right. repeat split.
    + left. reflexivity.
Qed.

(** A fetch that is not failed finds what is stored. *)
Lemma client_Get_answered (name : string) (status : ClusterOperatorStatus.t)
    (w : World) :
  fst (nextFault w) = None ->
  objects w !! name = Some status ->
  client_Get name w
  = ((ClusterOperator.mk name status, None),
     snd (nextFault (record (ActGet name) w))).
Proof.
  intros Hf Hl. unfold client_Get, bind, compose, ret.
  unfold nextFault in *.
  change (faults (record (ActGet name) w)) with (faults w).
  destruct (faults w) as [|[e|] fs]; simpl in Hf; try discriminate;
    cbv beta iota zeta.
  - change (objects (record (ActGet name) w)) with (objects w).
    rewrite Hl. reflexivity.
  - change (objects (set_faults fs (record (ActGet name) w)))
      with (objects w).
    rewrite Hl. reflexivity.
Qed.

(** The store after get-or-create: as before, or with the empty record of
    the operator added where there was none. *)
Lemma GetOrCreateClusterOperator_objects (w : World) :
  let w' := snd (GetOrCreateClusterOperator w) in
  objects w' = objects w
  \/ (objects w !! OperatorName = None
      /\ objects w' = <[OperatorName := ClusterOperatorStatus.zero]> (objects w)
      /\ fst (GetOrCreateClusterOperator w)
         = (ClusterOperator.mk OperatorName ClusterOperatorStatus.zero, None)).
Proof.
  unfold GetOrCreateClusterOperator, bind, ret.
  pose proof (client_Get_world OperatorName w) as (Ho & _ & _).
  destruct (client_Get OperatorName w) as [[existing err] w1].
  simpl in Ho. destruct (IsNotFound err).
  - pose proof (client_Create_objects
                  (ClusterOperator.mk OperatorName ClusterOperatorStatus.zero)
                  w1) as Hc.
    cbv zeta in Hc. simpl ClusterOperator.Name in Hc.
    simpl ClusterOperator.Status in Hc. rewrite Ho in Hc.
    destruct Hc as [Hc | (Hn & Hc & Hr)]; [left; exact Hc|].
    right. repeat split; assumption.
  - left. exact Ho.
Qed.

Lemma GetOrCreateClusterOperator_monotone (w : World)
    (name : string) (status : ClusterOperatorStatus.t) :
  objects w !! name = Some status ->
  objects (snd (GetOrCreateClusterOperator w)) !! name = Some status.
Proof.
  intros Hl.
  destruct (GetOrCreateClusterOperator_objects w) as [-> | (Hn & -> & _)];
    [exact Hl|].
  rewrite lookup_insert_ne; [exact Hl|]. intros <-. congruence.
Qed.

Lemma GetOrCreateClusterOperator_others (w : World) (name : string) :
  name <> OperatorName ->
  objects (snd (GetOrCreateClusterOperator w)) !! name = objects w !! name.
Proof.
  intros Hne.
  destruct (GetOrCreateClusterOperator_objects w) as [-> | (Hn & -> & _)];
    [reflexivity|].
  apply lookup_insert_ne. congruence.
Qed.

(** X1: get-or-create never changes or removes a record that is stored,
    never touches a record of another name, and never writes a status. *)
Theorem GetOrCreateClusterOperator_keeps_records (w : World) :
  let w' := snd (GetOrCreateClusterOperator w) in
  (forall name status,
     objects w !! name = Some status -> objects w' !! name = Some status)
  /\ (forall name,
        name <> OperatorName -> objects w' !! name = objects w !! name)
  /\ updates w' = updates w.
Proof.
  cbv zeta. split; [|split].
  - apply GetOrCreateClusterOperator_monotone.
  - apply GetOrCreateClusterOperator_others.
  - apply GetOrCreateClusterOperator_updates.
Qed.

(** X2: get-or-create is idempotent.  Once it has returned a record, a
    second call whose fetch is not failed returns the same record, issues
    the fetch and nothing else, and leaves the store as it is. *)
Theorem GetOrCreateClusterOperator_again
    (w : World) (co : ClusterOperator.t) (w1 : World) :
  GetOrCreateClusterOperator w = ((co, None), w1) ->
  fst (nextFault w1) = None ->
  let w2 := snd (GetOrCreateClusterOperator w1) in
  fst (GetOrCreateClusterOperator w1) = (co, None)
  /\ objects w2 = objects w1
  /\ actions w2 = ActGet OperatorName :: actions w1.
Proof.
  intros Hrun Hf.
  apply GetOrCreateClusterOperator_success in Hrun as [Hname Hl].
  cbv zeta. unfold GetOrCreateClusterOperator, bind, ret.
  rewrite (client_Get_answered OperatorName (ClusterOperator.Status co) w1
             Hf Hl).
  change (IsNotFound None) with false. cbv beta iota.
  destruct co as [n st]. simpl in Hname. subst n.
  split; [reflexivity|].
  unfold nextFault.
  change (faults (record (ActGet OperatorName) w1)) with (faults w1).
  destruct (faults w1) as [|f fs]; split; reflexivity.
Qed.

(** X3: the dependency check only reads.  It issues one request, the fetch
    of the machine-api record, and leaves the store and the clock as they
    are. *)
Theorem CheckMachineAPI_reads_only (w : World) :
  let w' := snd (CheckMachineAPI w) in
  actions w' = ActGet "machine-api" :: actions w
  /\ objects w' = objects w
  /\ clock w' = clock w /\ now w' = now w.
Proof.
  cbv zeta.
  assert (Hsnd : snd (CheckMachineAPI w) = snd (client_Get "machine-api" w)).
  { unfold CheckMachineAPI, bind, ret.
    destruct (client_Get "machine-api" w) as [[mao [e|]] w1];
      [reflexivity|].
    destruct (_ && _); reflexivity. }
  rewrite Hsnd. split; [apply client_Get_actions|].
  apply client_Get_world.
Qed.

(** X4: the version comparator is a query with one side effect.  It never
    writes a status and never changes a stored record, but a run without
    error leaves a record of the operator in the store, created empty where
    there was none; and an error comes with the answer [false]. *)
Theorem IsDifferentVersions_effects
    (desired : slice OperandVersion.t) (w : World) :
  let w' := snd (IsDifferentVersions desired w) in
  let differs := fst (fst (IsDifferentVersions desired w)) in
  let err := snd (fst (IsDifferentVersions desired w)) in
  updates w' = updates w
  /\ (forall name status,
        objects w !! name = Some status -> objects w' !! name = Some status)
  /\ (err = None -> is_Some (objects w' !! OperatorName))
  /\ (err <> None -> differs = false).
Proof.
  cbv zeta.
  pose proof (GetOrCreateClusterOperator_monotone w) as Hkeep.
  pose proof (GetOrCreateClusterOperator_updates w) as Hu.
  pose proof (GetOrCreateClusterOperator_success w) as Hs.
  unfold IsDifferentVersions, bind, ret.
  destruct (GetOrCreateClusterOperator w) as [[co [e|]] w1]; simpl in *.
  - repeat split; auto. discriminate.
  - repeat split; auto.
    + intros _. destruct (Hs co w1 eq_refl) as [_ Hl]. rewrite Hl. eauto.
    + congruence.
Qed.

(** ** More on applying conditions *)

(** The requests of a run of [ApplyConditions], most recent first: the
    fetch, a creation after a not-found answer, and at the end at most one
    status write, of the candidate under the name of the operator. *)
Lemma ApplyConditions_actions (r : StatusReporter)
    (conds : slice ClusterOperatorStatusCondition.t) (w : World) :
  let w' := snd (ApplyConditions r conds w) in
  let get := ActGet OperatorName in
  let create :=
    ActCreate (ClusterOperator.mk OperatorName ClusterOperatorStatus.zero) in
  let write :=
    ActUpdateStatus
      (ClusterOperator.mk OperatorName (fst (buildStatus r conds w))) in
  actions w' = get :: actions w
  \/ actions w' = create :: get :: actions w
  \/ actions w' = write :: get :: actions w
  \/ actions w' = write :: create :: get :: actions w.
Proof.
  cbv zeta. rewrite ApplyConditions_steps.
  pose proof (buildStatus_sameStore r conds w) as (_ & _ & Ha).
  destruct (buildStatus r conds w) as [status w1]. simpl in Ha |- *.
  pose proof (GetOrCreateClusterOperator_actions w1) as Hg.
  pose proof (GetOrCreateClusterOperator_success w1) as Hs.
  destruct (GetOrCreateClusterOperator w1) as [[co err] w2].
  cbv zeta in Hg. simpl in Hg. rewrite Ha in Hg.
  destruct err as [e|]; simpl; [tauto|].
  destruct (Semantic_DeepEqual _ _); simpl; [tauto|].
  destruct (Hs co w2 eq_refl) as [Hname _]. rewrite Hname.
  pose proof (client_UpdateStatus_actions
                (ClusterOperator.mk OperatorName status) w2) as Hu.
  destruct (client_UpdateStatus _ w2) as [[o err'] w3]. simpl in Hu |- *.
  rewrite Hu. destruct Hg as [-> | ->]; tauto.
Qed.

(** What a run of [ApplyConditions] does to the store: records of other
    names stay as they are, and the record of the operator stays as it is,
    or is created empty, or gets the candidate as its status. *)
Lemma ApplyConditions_objects (r : StatusReporter)
    (conds : slice ClusterOperatorStatusCondition.t) (w : World) :
  let w' := snd (ApplyConditions r conds w) in
  (forall name,
     name <> OperatorName -> objects w' !! name = objects w !! name)
  /\ (objects w' !! OperatorName = objects w !! OperatorName
      \/ objects w' !! OperatorName = Some ClusterOperatorStatus.zero
      \/ objects w' !! OperatorName = Some (fst (buildStatus r conds w))).
Proof.
  cbv zeta. rewrite ApplyConditions_steps.
  pose proof (buildStatus_sameStore r conds w) as (Ho & _ & _).
  destruct (buildStatus r conds w) as [status w1]. simpl in Ho |- *.
  pose proof (GetOrCreateClusterOperator_objects w1) as Hg.
  pose proof (GetOrCreateClusterOperator_success w1) as Hs.
  destruct (GetOrCreateClusterOperator w1) as [[co err] w2].
  cbv zeta in Hg. simpl in Hg. rewrite Ho in Hg.
  assert (Hg2 : (forall name, name <> OperatorName ->
                   objects w2 !! name = objects w !! name)
                /\ (objects w2 !! OperatorName = objects w !! OperatorName
                    \/ objects w2 !! OperatorName
                       = Some ClusterOperatorStatus.zero)).
  { destruct Hg as [-> | (_ & -> & _)].
    - split; [reflexivity | left; reflexivity].
    - split.
      + intros name Hne. apply lookup_insert_ne. congruence.
      + right. apply lookup_insert_eq. }
  destruct Hg2 as [Hother Hown].
  destruct err as [e|]; simpl; [split; [exact Hother | tauto]|].
  destruct (Semantic_DeepEqual _ _); simpl; [split; [exact Hother | tauto]|].
  destruct (Hs co w2 eq_refl) as [Hname _]. rewrite Hname.
  pose proof (client_UpdateStatus_objects
                (ClusterOperator.mk OperatorName status) w2) as Hu.
  destruct (client_UpdateStatus _ w2) as [[o err'] w3].
  cbv zeta in Hu. simpl in Hu |- *.
  destruct Hu as [-> | [-> _]]; [split; [exact Hother | tauto]|].
  split.
  - intros name Hne. rewrite lookup_insert_ne by congruence.
    apply Hother, Hne.
  - right. right. apply lookup_insert_eq.
Qed.

(** X5: a run of [ApplyConditions] issues the fetch of the operator's
    record first, a creation after it at most once, and at most one status
    write, which is then its last request and carries the candidate under
    the name of the operator. *)
Theorem ApplyConditions_requests (r : StatusReporter)
    (conds : slice ClusterOperatorStatusCondition.t) (w : World) :
  let w' := snd (ApplyConditions r conds w) in
  let get := ActGet OperatorName in
  let create :=
    ActCreate (ClusterOperator.mk OperatorName ClusterOperatorStatus.zero) in
  let write :=
    ActUpdateStatus
      (ClusterOperator.mk OperatorName (fst (buildStatus r conds w))) in
  (actions w' = get :: actions w
   \/ actions w' = create :: get :: actions w
   \/ actions w' = write :: get :: actions w
   \/ actions w' = write :: create :: get :: actions w)
  /\ (updates w' <= S (updates w))%nat.
Proof.
  cbv zeta. split; [apply ApplyConditions_actions|].
  unfold updates.
  destruct (ApplyConditions_actions r conds w) as [H|[H|[H|H]]];
    cbv zeta in H; rewrite H; simpl; lia.
Qed.

(** X6: a run of [ApplyConditions] never touches a stored record of
    another name, such as that of the dependency. *)
Theorem ApplyConditions_other_records (r : StatusReporter)
    (conds : slice ClusterOperatorStatusCondition.t) (w : World)
    (name : string) :
  name <> OperatorName ->
  objects (snd (ApplyConditions r conds w)) !! name = objects w !! name.
Proof. intros Hne. apply ApplyConditions_objects, Hne. Qed.

(** X7: when [ApplyConditions] returns no error, the store holds a record
    of the operator whose status is semantically equal to the candidate,
    whether the run had to write it or found it there. *)
Theorem ApplyConditions_nil_stored (r : StatusReporter)
    (conds : slice ClusterOperatorStatusCondition.t) (w w' : World) :
  ApplyConditions r conds w = (None, w') ->
  exists stored,
    objects w' !! OperatorName = Some stored
    /\ Semantic_DeepEqual stored (fst (buildStatus r conds w)) = true.
Proof.
  rewrite ApplyConditions_steps.
  destruct (buildStatus r conds w) as [status w1]. simpl.
  destruct (GetOrCreateClusterOperator w1) as [[co err] w2] eqn:Hget.
  destruct err as [e|]; [discriminate|].
  apply GetOrCreateClusterOperator_success in Hget as [Hname Hl].
  destruct (Semantic_DeepEqual _ _) eqn:Heq.
  - intros H. injection H as <-. exists (ClusterOperator.Status co). auto.
  - destruct (client_UpdateStatus _ w2) as [[o err'] w3] eqn:Hu.
    intros H. injection H as -> <-.
    apply client_UpdateStatus_success in Hu. simpl in Hu.
    rewrite Hname in Hu. exists status.
    split; [exact Hu | apply Semantic_DeepEqual_refl].
Qed.

(** X8: an error of get-or-create is the error of [ApplyConditions]; no
    status write is issued and the store is left as it was. *)
Theorem ApplyConditions_get_error (r : StatusReporter)
    (conds : slice ClusterOperatorStatusCondition.t) (w : World)
    (co : ClusterOperator.t) (e : error) (w2 : World) :
  GetOrCreateClusterOperator (snd (buildStatus r conds w))
    = ((co, Some e), w2) ->
  ApplyConditions r conds w = (Some e, w2)
  /\ objects w2 = objects w
  /\ updates w2 = updates w.
Proof.
  intros Hget. rewrite ApplyConditions_steps.
  pose proof (buildStatus_sameStore r conds w) as (Ho & _ & _).
  pose proof (buildStatus_updates r conds w) as Hu.
  destruct (buildStatus r conds w) as [status w1]. simpl in Hget, Ho, Hu.
  pose proof (GetOrCreateClusterOperator_objects w1) as Hg.
  pose proof (GetOrCreateClusterOperator_updates w1) as Hgu.
  rewrite Hget in Hg, Hgu |- *. cbv zeta in Hg. simpl in Hg, Hgu.
  split; [reflexivity|]. split; [|congruence].
  destruct Hg as [Hg | (_ & _ & Hr)]; [congruence | discriminate].
Qed.

(** X9: an error of the status write is the error of [ApplyConditions],
    and the failed write leaves the store as get-or-create left it. *)
Theorem ApplyConditions_update_error (r : StatusReporter)
    (conds : slice ClusterOperatorStatusCondition.t) (w : World)
    (status : ClusterOperatorStatus.t) (w1 : World)
    (co : ClusterOperator.t) (w2 : World)
    (o : ClusterOperator.t) (e : error) (w3 : World) :
  buildStatus r conds w = (status, w1) ->
  GetOrCreateClusterOperator w1 = ((co, None), w2) ->
  Semantic_DeepEqual (ClusterOperator.Status co) status = false ->
  client_UpdateStatus (ClusterOperator.mk (ClusterOperator.Name co) status) w2
    = ((o, Some e), w3) ->
  ApplyConditions r conds w = (Some e, w3) /\ objects w3 = objects w2.
Proof.
  intros Hb Hg Heq Hu. rewrite ApplyConditions_steps, Hb, Hg, Heq, Hu.
  split; [reflexivity|].
  pose proof (client_UpdateStatus_objects
                (ClusterOperator.mk (ClusterOperator.Name co) status) w2) as H.
  rewrite Hu in H. cbv zeta in H. simpl in H.
  destruct H as [H | [_ H]]; [exact H | discriminate].
Qed.

(** X10: every status that a run of [ApplyConditions] writes carries the
    related objects of the reporter as they are, the single version entry
    "cluster-autoscaler" with the version of the build, and no extension. *)
Theorem ApplyConditions_written_fields (r : StatusReporter)
    (conds : slice ClusterOperatorStatusCondition.t) (w : World)
    (obj : ClusterOperator.t) :
  In (ActUpdateStatus obj) (actions (snd (ApplyConditions r conds w))) ->
  In (ActUpdateStatus obj) (actions w)
  \/ (ClusterOperatorStatus.RelatedObjects (ClusterOperator.Status obj)
        = relatedObjects r
      /\ ClusterOperatorStatus.Versions (ClusterOperator.Status obj)
         = Some [OperandVersion.mk "cluster-autoscaler" Raw]
      /\ ClusterOperatorStatus.Extension (ClusterOperator.Status obj) = "").
Proof.
  intros H. apply ApplyConditions_writes_candidate in H as [H | ->];
    [left; exact H | right].
  pose proof (buildStatus_fields r conds w) as (Hv & Hr & He).
  auto.
Qed.

(** X11: what [Available], [Fail] and [Progressing] write.  Every status
    one of them writes has the three conditions of its state: the reason
    and message given sit on the condition that names the state, and the
    other two conditions have neither. *)
Theorem synthesizers_write_their_state
    (r : StatusReporter) (reason message : string) (w : World)
    (obj : ClusterOperator.t) :
  (In (ActUpdateStatus obj) (actions (snd (Available r reason message w))) ->
   In (ActUpdateStatus obj) (actions w)
   \/ shapes (ClusterOperator.Status obj)
      = [(OperatorAvailable, ConditionTrue, reason, message);
         (OperatorProgressing, ConditionFalse, "", "");
         (OperatorFailing, ConditionFalse, "", "")])
  /\ (In (ActUpdateStatus obj) (actions (snd (Fail r reason message w))) ->
      In (ActUpdateStatus obj) (actions w)
      \/ shapes (ClusterOperator.Status obj)
         = [(OperatorAvailable, ConditionTrue, "", "");
            (OperatorProgressing, ConditionFalse, "", "");
            (OperatorFailing, ConditionTrue, reason, message)])
  /\ (In (ActUpdateStatus obj)
         (actions (snd (Progressing r reason message w))) ->
      In (ActUpdateStatus obj) (actions w)
      \/ shapes (ClusterOperator.Status obj)
         = [(OperatorAvailable, ConditionTrue, "", "");
            (OperatorProgressing, ConditionTrue, reason, message);
            (OperatorFailing, ConditionFalse, "", "")]).
Proof.
  split; [|split]; intros H;
    apply ApplyConditions_writes_candidate in H as [H | ->]; auto; right.
  - apply Available_candidate.
  - apply Fail_candidate.
  - apply Progressing_candidate.
Qed.

(** ** One condition per type, whatever the conditions given *)

Lemma Find_None (l : list ClusterOperatorStatusCondition.t) (t : string) :
  FindOperatorStatusCondition l t = None <->
  ~ In t (map ClusterOperatorStatusCondition.Type_ l).
Proof.
  induction l as [|c l IH]; simpl; [tauto|].
  destruct (String.eqb_spec (ClusterOperatorStatusCondition.Type_ c) t)
    as [Heq|Hne].
  - split; [discriminate | intros H; exfalso; apply H; left; exact Heq].
  - destruct (FindOperatorStatusCondition l t) as [j|]; simpl.
    + split; [discriminate|]. intros H.
      assert (Hnone : Some j = None) by (apply IH; tauto).
      discriminate.
    + split; [|reflexivity]. intros _ [H|H]; [contradiction|].
      apply (proj1 IH eq_refl), H.
Qed.

Lemma Find_Some (l : list ClusterOperatorStatusCondition.t) (t : string)
    (i : nat) :
  FindOperatorStatusCondition l t = Some i ->
  exists c, l !! i = Some c /\ ClusterOperatorStatusCondition.Type_ c = t.
Proof.
  revert i. induction l as [|c l IH]; intros i; simpl; [discriminate|].
  destruct (String.eqb_spec (ClusterOperatorStatusCondition.Type_ c) t)
    as [Heq|Hne].
  - intros H. injection H as <-. exists c. auto.
  - destruct (FindOperatorStatusCondition l t) as [j|]; simpl;
      [|discriminate].
    intros H. injection H as <-. apply IH. reflexivity.
Qed.

Lemma types_insert_same (l : list ClusterOperatorStatusCondition.t)
    (i : nat) (x y : ClusterOperatorStatusCondition.t) :
  l !! i = Some x ->
  ClusterOperatorStatusCondition.Type_ y
    = ClusterOperatorStatusCondition.Type_ x ->
  map ClusterOperatorStatusCondition.Type_ (<[i := y]> l)
  = map ClusterOperatorStatusCondition.Type_ l.
Proof.
  revert i. induction l as [|c l IH]; intros [|i]; simpl; try discriminate.
  - intros H Ht. injection H as ->. rewrite Ht. reflexivity.
  - intros H Ht. rewrite (IH i H Ht). reflexivity.
Qed.

(** Setting a condition appends its type when the type is new, and leaves
    the list of types as it is otherwise. *)
Lemma SetOperatorStatusCondition_types
    (conditions : slice ClusterOperatorStatusCondition.t)
    (c : ClusterOperatorStatusCondition.t) (w : World) :
  map ClusterOperatorStatusCondition.Type_
    (elems (fst (SetOperatorStatusCondition conditions c w)))
  = match FindOperatorStatusCondition (elems conditions)
            (ClusterOperatorStatusCondition.Type_ c) with
    | Some _ =>
        map ClusterOperatorStatusCondition.Type_ (elems conditions)
    | None =>
        map ClusterOperatorStatusCondition.Type_ (elems conditions)
        ++ [ClusterOperatorStatusCondition.Type_ c]
    end.
Proof.
  unfold SetOperatorStatusCondition, bind, ret, append.
  destruct (FindOperatorStatusCondition _ _) as [i|] eqn:Hfind.
  - apply Find_Some in Hfind as (existing & Hl & Ht). rewrite Hl.
    destruct (String.eqb _ _).
    + simpl. apply (types_insert_same _ _ existing); [exact Hl | reflexivity].
    + destruct (time_Now w) as [t w']. simpl.
      apply (types_insert_same _ _ existing); [exact Hl | reflexivity].
  - destruct (time_Now w) as [t w']. simpl.
    rewrite map_app. reflexivity.
Qed.

Lemma forRange_types (l : list ClusterOperatorStatusCondition.t) :
  forall (conditions : slice ClusterOperatorStatusCondition.t) (w : World),
    NoDup (map ClusterOperatorStatusCondition.Type_ (elems conditions)) ->
    let result :=
      fst (forRange l SetOperatorStatusCondition conditions w) in
    NoDup (map ClusterOperatorStatusCondition.Type_ (elems result))
    /\ forall t,
         In t (map ClusterOperatorStatusCondition.Type_ (elems result)) <->
         In t (map ClusterOperatorStatusCondition.Type_ (elems conditions))
         \/ In t (map ClusterOperatorStatusCondition.Type_ l).
Proof.
  induction l as [|c l IH]; intros conditions w Hnd; simpl.
  - split; [exact Hnd | intros t; tauto].
  - unfold bind.
    pose proof (SetOperatorStatusCondition_types conditions c w) as Hstep.
    destruct (SetOperatorStatusCondition conditions c w) as [cs w1].
    simpl in Hstep.
    assert (Hnd1 : NoDup (map ClusterOperatorStatusCondition.Type_ (elems cs))).
    { rewrite Hstep.
      destruct (FindOperatorStatusCondition _ _) eqn:Hfind; [exact Hnd|].
      apply Find_None in Hfind.
      apply NoDup_app. split; [exact Hnd|]. split.
      - intros x Hx Hx'. apply list_elem_of_In in Hx, Hx'.
        destruct Hx' as [<-|[]]. contradiction.
      - apply NoDup_singleton. }
    destruct (IH cs w1 Hnd1) as [Hres Hmem]. split; [exact Hres|].
    intros t. rewrite Hmem, Hstep.
    destruct (FindOperatorStatusCondition _ _) as [i|] eqn:Hfind.
    + apply Find_Some in Hfind as (existing & Hl & Ht).
      assert (Hin : In (ClusterOperatorStatusCondition.Type_ c)
                      (map ClusterOperatorStatusCondition.Type_
                         (elems conditions))).
      { rewrite <- Ht. apply in_map. apply list_elem_of_In.
        eapply list_elem_of_lookup_2, Hl. }
      split; [tauto|]. intros [H|[<-|H]]; tauto.
    + rewrite in_app_iff. simpl. tauto.
Qed.

(** X14: whatever conditions [ApplyConditions] is given, its candidate has
    one condition of each type that occurs among them and no other: no type
    occurs twice, even where the conditions given repeat a type. *)
Theorem buildStatus_one_condition_per_type (r : StatusReporter)
    (conds : slice ClusterOperatorStatusCondition.t) (w : World) :
  let candidate := fst (buildStatus r conds w) in
  NoDup (conditionTypes candidate)
  /\ forall t,
       In t (conditionTypes candidate) <->
       In t (map ClusterOperatorStatusCondition.Type_ (elems conds)).
Proof.
  cbv zeta. unfold conditionTypes, buildStatus, bind, ret.
  pose proof (forRange_types (elems conds) None w (NoDup_nil_2))
    as [Hnd Hmem].
  cbv zeta in Hnd, Hmem. simpl in Hnd, Hmem |- *.
  destruct (forRange _ _ _ w) as [cs w']. simpl in *.
  split; [exact Hnd|]. intros t. rewrite Hmem. tauto.
Qed.

(** ** More on one tick *)

(** A tick that returns done has found the dependency healthy and has read
    a record of the operator whose version list is the desired one. *)
Lemma pollFunc_done_inv (r : StatusReporter) (w : World) :
  fst (fst (pollFunc r w)) = true ->
  exists w1 co w2,
    CheckMachineAPI w = ((true, None), w1)
    /\ GetOrCreateClusterOperator w1 = ((co, None), w2)
    /\ ClusterOperatorStatus.Versions (ClusterOperator.Status co)
       = desiredVersions.
Proof.
  unfold pollFunc, bind, ret.
  destruct (CheckMachineAPI w) as [[ok [e|]] w1] eqn:Hcheck.
  - destruct (Fail _ _ _ w1). discriminate.
  - destruct ok; [|destruct (Fail _ _ _ w1); discriminate].
    unfold IsDifferentVersions, bind, ret.
    destruct (GetOrCreateClusterOperator w1) as [[co [e2|]] w2] eqn:Hget.
    + destruct (Fail _ _ _ w2). discriminate.
    + destruct (reflect_DeepEqual desiredVersions
                  (ClusterOperatorStatus.Versions (ClusterOperator.Status co)))
        eqn:Heq; simpl.
      * intros _. exists w1, co, w2. apply reflect_DeepEqual_eq in Heq. auto.
      * destruct (Progressing _ _ _ w2). discriminate.
Qed.

(** X17: a tick returns done exactly when the dependency check answers
    healthy without an error and the record that get-or-create then returns
    has the desired version list; in every other case, an error of the
    store included, it returns not-done.  It never returns an error. *)
Theorem pollFunc_done_iff (r : StatusReporter) (w : World) :
  (fst (fst (pollFunc r w)) = true <->
   exists w1 co w2,
     CheckMachineAPI w = ((true, None), w1)
     /\ GetOrCreateClusterOperator w1 = ((co, None), w2)
     /\ ClusterOperatorStatus.Versions (ClusterOperator.Status co)
        = desiredVersions)
  /\ snd (fst (pollFunc r w)) = None.
Proof.
  split; [|apply pollFunc_nil_error]. split; [apply pollFunc_done_inv|].
  intros (w1 & co & w2 & Hcheck & Hget & Hv).
  rewrite (pollFunc_healthy r w w1 co w2 Hcheck Hget), Hv.
  replace (reflect_DeepEqual desiredVersions desiredVersions) with true;
    [reflexivity|].
  symmetry. apply reflect_DeepEqual_eq. reflexivity.
Qed.

Lemma CheckMachineAPI_snd (w : World) :
  snd (CheckMachineAPI w) = snd (client_Get "machine-api" w).
Proof.
  unfold CheckMachineAPI, bind, ret.
  destruct (client_Get "machine-api" w) as [[mao [e|]] w1]; [reflexivity|].
  destruct (_ && _); reflexivity.
Qed.

(** The world after a tick is the world after one run of [ApplyConditions],
    started after the dependency check or after the get-or-create of the
    version comparator. *)
Lemma pollFunc_world (r : StatusReporter) (w : World) :
  exists conds w0,
    snd (pollFunc r w) = snd (ApplyConditions r conds w0)
    /\ (w0 = snd (CheckMachineAPI w)
        \/ w0 = snd (GetOrCreateClusterOperator (snd (CheckMachineAPI w)))).
Proof.
  unfold pollFunc, bind, ret.
  destruct (CheckMachineAPI w) as [[ok [e|]] w1]; simpl.
  - exists (Fail_conditions ReasonMissingDependency
              ("error checking machine-api operator status " +:+ Error e)), w1.
    unfold Fail. split; [|left; reflexivity].
    destruct (ApplyConditions r _ w1). reflexivity.
  - destruct ok.
    + unfold IsDifferentVersions, bind, ret.
      destruct (GetOrCreateClusterOperator w1) as [[co [e2|]] w2]; simpl.
      * exists (Fail_conditions ReasonEmpty
                  ("error checking cluster-autoscaler-operator version "
                   +:+ Error e2)), w2.
        unfold Fail. split; [|right; reflexivity].
        destruct (ApplyConditions r _ w2). reflexivity.
      * destruct (negb _).
        -- exists (Progressing_conditions ReasonSyncing
                     ("Syncing to version "
                      +:+ printOperandVersions desiredVersions)), w2.
           unfold Progressing. split; [|right; reflexivity].
           destruct (ApplyConditions r _ w2). reflexivity.
        -- exists (Available_conditions ReasonEmpty ""), w2.
           unfold Available. split; [|right; reflexivity].
           destruct (ApplyConditions r _ w2). reflexivity.
    + exists (Fail_conditions ReasonMissingDependency
                "machine-api operator not ready"), w1.
      unfold Fail. split; [|left; reflexivity].
      destruct (ApplyConditions r _ w1). reflexivity.
Qed.

(** X18: a tick writes at most one status, and it never touches a stored
    record of a name other than the operator's: the record of the
    dependency is only read. *)
Theorem pollFunc_store (r : StatusReporter) (w : World) :
  let w' := snd (pollFunc r w) in
  (updates w' <= S (updates w))%nat
  /\ forall name,
       name <> OperatorName -> objects w' !! name = objects w !! name.
Proof.
  cbv zeta.
  destruct (pollFunc_world r w) as (conds & w0 & -> & Hw0).
  pose proof (client_Get_world "machine-api" w) as (Hco & _ & _).
  pose proof (client_Get_actions "machine-api" w) as Hca.
  rewrite <- CheckMachineAPI_snd in Hco, Hca.
  assert (Hcu : updates (snd (CheckMachineAPI w)) = updates w).
  { unfold updates. rewrite Hca. reflexivity. }
  assert (H0 : updates w0 = updates w
               /\ forall name, name <> OperatorName ->
                    objects w0 !! name = objects w !! name).
  { destruct Hw0 as [-> | ->].
    - split; [exact Hcu | intros name _; rewrite Hco; reflexivity].
    - split.
      + rewrite GetOrCreateClusterOperator_updates. exact Hcu.
      + intros name Hne.
        rewrite GetOrCreateClusterOperator_others by exact Hne.
        rewrite Hco. reflexivity. }
  destruct H0 as [Hu0 Ho0]. split.
  - unfold updates in *.
    destruct (ApplyConditions_actions r conds w0) as [H|[H|[H|H]]];
      cbv zeta in H; rewrite H; simpl; lia.
  - intros name Hne.
    destruct (ApplyConditions_objects r conds w0) as [Hother _].
    cbv zeta in Hother. rewrite (Hother name Hne). apply Ho0, Hne.
Qed.

(** ** More on the whole run *)

(** X19: the first tick runs before the stop channel is looked at.  With a
    stop channel that is closed from the start, [Report] still runs one
    whole tick, whose writes stay, and then returns nil if that tick was
    done and the timeout error otherwise. *)
Theorem Report_stopped_runs_one_tick (r : StatusReporter) (w : World) :
  Report r Stop w
  = (if fst (fst (pollFunc r w)) then None else Some ErrWaitTimeout,
     snd (pollFunc r w)).
Proof.
  unfold Report, PollImmediateUntil, bind, ret.
  pose proof (pollFunc_nil_error r w) as He.
  destruct (pollFunc r w) as [[ok err] w1]. simpl in He |- *. subst err.
  destruct ok; reflexivity.
Qed.

(** A tick keeps the desired version list out of the operator's record,
    and does not return done as long as it is not there. *)
Lemma pollFunc_neverDesired (r : StatusReporter) (w : World) :
  neverDesired w ->
  neverDesired (snd (pollFunc r w)) /\ fst (fst (pollFunc r w)) = false.
Proof.
  intros Hnever.
  assert (Hcheck : neverDesired (snd (CheckMachineAPI w))).
  { intros status. rewrite CheckMachineAPI_snd.
    destruct (client_Get_world "machine-api" w) as (-> & _ & _).
    apply Hnever. }
  assert (Hgoc : forall v, neverDesired v ->
                   neverDesired (snd (GetOrCreateClusterOperator v))).
  { intros v Hv status.
    destruct (GetOrCreateClusterOperator_objects v) as [-> | (_ & -> & _)];
      [apply Hv|].
    rewrite lookup_insert_eq. intros H. injection H as <-. reflexivity. }
  split.
  - destruct (pollFunc_world r w) as (conds & w0 & -> & Hw0).
    assert (H0 : neverDesired w0).
    { destruct Hw0 as [-> | ->]; [exact Hcheck | apply Hgoc, Hcheck]. }
    intros status.
    destruct (ApplyConditions_objects r conds w0) as [_ [-> | [-> | ->]]].
    + apply H0.
    + intros H. injection H as <-. reflexivity.
    + intros H. injection H as <-.
      destruct (buildStatus_fields r conds w0) as (-> & _ & _). reflexivity.
  - destruct (fst (fst (pollFunc r w))) eqn:Hdone; [|reflexivity].
    exfalso.
    apply pollFunc_done_inv in Hdone as (w1 & co & w2 & Hc & Hg & Hv).
    assert (H2 : neverDesired w2).
    { pose proof (Hgoc (snd (CheckMachineAPI w)) Hcheck) as H.
      rewrite Hc in H. simpl in H. rewrite Hg in H. exact H. }
    apply GetOrCreateClusterOperator_success in Hg as [_ Hl].
    apply H2 in Hl. rewrite Hv in Hl.
    assert (Htrue : reflect_DeepEqual desiredVersions desiredVersions = true)
      by (apply reflect_DeepEqual_eq; reflexivity).
    congruence.
Qed.

Lemma WaitFor_neverDesired (r : StatusReporter) (s : Schedule) :
  forall w,
    neverDesired w -> quietSchedule s ->
    fst (WaitFor (pollFunc r) s w) = Some ErrWaitTimeout.
Proof.
  induction s as [|env|env rest IH]; intros w Hw Hs; simpl.
  - reflexivity.
  - simpl in Hs.
    destruct (pollFunc_neverDesired r (env w) (Hs w Hw)) as [_ Hdone].
    pose proof (pollFunc_nil_error r (env w)) as He.
    destruct (pollFunc r (env w)) as [[ok err] w']. simpl in *.
    subst ok err. reflexivity.
  - destruct Hs as [Henv Hrest].
    destruct (pollFunc_neverDesired r (env w) (Henv w Hw)) as [Hw' Hdone].
    pose proof (pollFunc_nil_error r (env w)) as He.
    destruct (pollFunc r (env w)) as [[ok err] w']. simpl in *.
    subst ok err. apply IH; assumption.
Qed.

(** X20: left to itself, [Report] never returns nil.  If the stored record
    of the operator does not have the desired version list at the start,
    and nothing outside the reporter puts it there between the ticks, then
    no tick is done, whatever the dependency and the store answer, and
    [Report] returns the timeout error when the stop channel is closed. *)
Theorem Report_never_nil_on_its_own
    (r : StatusReporter) (stopCh : Schedule) (w : World) :
  neverDesired w -> quietSchedule stopCh ->
  fst (Report r stopCh w) = Some ErrWaitTimeout.
Proof.
  intros Hw Hs. unfold Report, PollImmediateUntil, bind, ret.
  destruct (pollFunc_neverDesired r w Hw) as [Hw' Hdone].
  pose proof (pollFunc_nil_error r w) as He.
  destruct (pollFunc r w) as [[ok err] w1]. simpl in *. subst ok err.
  apply WaitFor_neverDesired; assumption.
Qed.

(** ** More on the message *)

Lemma joined_app (sep : string) (l1 l2 : list string) :
  l1 <> [] -> l2 <> [] ->
  joined sep (l1 ++ l2) = joined sep l1 +:+ sep +:+ joined sep l2.
Proof.
  intros H1 H2. induction l1 as [|x l1 IH]; [contradiction|].
  destruct l1 as [|y l1].
  - destruct l2 as [|z l2]; [contradiction | reflexivity].
  - change (joined sep ((x :: y :: l1) ++ l2))
      with (x +:+ sep +:+ joined sep ((y :: l1) ++ l2)).
    rewrite IH by discriminate.
    change (joined sep (x :: y :: l1))
      with (x +:+ sep +:+ joined sep (y :: l1)).
    rewrite !string_app_assoc. reflexivity.
Qed.

(** X21: the printed form of a list of operands that is made of two
    non-empty parts is the printed forms of the parts with ", " between
    them. *)
Theorem printOperandVersions_app (l1 l2 : list OperandVersion.t) :
  l1 <> [] -> l2 <> [] ->
  printOperandVersions (Some (l1 ++ l2))
  = printOperandVersions (Some l1) +:+ ", " +:+ printOperandVersions (Some l2).
Proof.
  intros H1 H2. rewrite !printOperandVersions_joined. simpl elems.
  rewrite map_app. apply joined_app.
  - destruct l1; [contradiction | discriminate].
  - destruct l2; [contradiction | discriminate].
Qed.

(** ** The state a tick leaves behind *)

Lemma CheckMachineAPI_no_write (w : World) (obj : ClusterOperator.t) :
  In (ActUpdateStatus obj) (actions (snd (CheckMachineAPI w))) ->
  In (ActUpdateStatus obj) (actions w).
Proof.
  rewrite CheckMachineAPI_snd, client_Get_actions.
  intros [H|H]; [discriminate | exact H].
Qed.

Lemma GetOrCreateClusterOperator_no_write (w : World)
    (obj : ClusterOperator.t) :
  In (ActUpdateStatus obj) (actions (snd (GetOrCreateClusterOperator w))) ->
  In (ActUpdateStatus obj) (actions w).
Proof.
  destruct (GetOrCreateClusterOperator_actions w) as [H|H]; cbv zeta in H;
    rewrite H; simpl.
  - intros [H1|H1]; [discriminate | exact H1].
  - intros [H1|[H1|H1]]; [discriminate | discriminate | exact H1].
Qed.

(** Against a store that answers every request, [ApplyConditions] returns
    no error. *)
Lemma ApplyConditions_answered (r : StatusReporter)
    (conds : slice ClusterOperatorStatusCondition.t) (w : World) :
  faults w = [] -> fst (ApplyConditions r conds w) = None.
Proof.
  intros Hf. rewrite ApplyConditions_steps.
  pose proof (buildStatus_sameStore r conds w) as (_ & Hfb & _).
  destruct (buildStatus r conds w) as [status w1]. simpl in Hfb.
  rewrite Hf in Hfb.
  destruct (GetOrCreateClusterOperator_no_faults w1 Hfb)
    as (stored & w2 & Hg & Hl & Hf2 & _).
  rewrite Hg. cbv beta iota. simpl ClusterOperator.Status.
  simpl ClusterOperator.Name.
  destruct (Semantic_DeepEqual stored status); [reflexivity|].
  rewrite client_UpdateStatus_no_faults;
    [reflexivity | exact Hf2 | exists stored; exact Hl].
Qed.

(** After a run of [ApplyConditions] without error, the stored status of
    the operator has the conditions of the candidate, whether the run wrote
    them or found them there. *)
Lemma ApplyConditions_success_shapes (r : StatusReporter)
    (conds : slice ClusterOperatorStatusCondition.t) (w w' : World) :
  ApplyConditions r conds w = (None, w') ->
  exists stored,
    objects w' !! OperatorName = Some stored
    /\ shapes stored = shapes (fst (buildStatus r conds w)).
Proof.
  rewrite ApplyConditions_steps.
  destruct (buildStatus r conds w) as [status w1]. simpl.
  destruct (GetOrCreateClusterOperator w1) as [[co err] w2] eqn:Hget.
  destruct err as [e|]; [discriminate|].
  apply GetOrCreateClusterOperator_success in Hget as [Hname Hl].
  destruct (Semantic_DeepEqual _ _) eqn:Heq.
  - intros H. injection H as <-. exists (ClusterOperator.Status co).
    split; [exact Hl|].
    apply Semantic_DeepEqual_iff in Heq as (Hc & _).
    unfold shapes. rewrite Hc. reflexivity.
  - destruct (client_UpdateStatus _ w2) as [[o err'] w3] eqn:Hu.
    intros H. injection H as -> <-.
    apply client_UpdateStatus_success in Hu. simpl in Hu.
    rewrite Hname in Hu. exists status. split; [exact Hu | reflexivity].
Qed.

(** What a run of [ApplyConditions] whose candidate has the conditions
    [expected] leaves behind: every status it writes has these conditions;
    if it returns no error, the stored status of the operator has them; and
    it returns no error against a store that answers every request. *)
Lemma ApplyConditions_leaves (r : StatusReporter)
    (conds : slice ClusterOperatorStatusCondition.t) (w : World)
    (expected : list (string * string * string * string)) :
  shapes (fst (buildStatus r conds w)) = expected ->
  let w' := snd (ApplyConditions r conds w) in
  (forall obj,
     In (ActUpdateStatus obj) (actions w') ->
     In (ActUpdateStatus obj) (actions w)
     \/ shapes (ClusterOperator.Status obj) = expected)
  /\ (fst (ApplyConditions r conds w) = None ->
      exists stored,
        objects w' !! OperatorName = Some stored /\ shapes stored = expected)
  /\ (faults w = [] ->
      exists stored,
        objects w' !! OperatorName = Some stored /\ shapes stored = expected).
Proof.
  intros Hshape. cbv zeta.
  assert (Hnil : fst (ApplyConditions r conds w) = None ->
                 exists stored,
                   objects (snd (ApplyConditions r conds w)) !! OperatorName
                     = Some stored
                   /\ shapes stored = expected).
  { intros Hres.
    destruct (ApplyConditions r conds w) as [res w'] eqn:Hrun.
    simpl in Hres |- *. subst res.
    destruct (ApplyConditions_success_shapes r conds w w' Hrun)
      as (stored & Hl & Hs).
    exists stored. split; [exact Hl | congruence]. }
  split; [|split].
  - intros obj H.
    apply ApplyConditions_writes_candidate in H as [H | ->]; auto.
  - exact Hnil.
  - intros Hf. apply Hnil, ApplyConditions_answered, Hf.
Qed.

(** C2: on a tick whose dependency check returns an error, the reporter
    synthesizes the Failing state with reason MissingDependency and the text
    of the error in the message, and the tick returns not-done with a nil
    error, so that polling goes on.  The state is synthesized by the tick
    itself: every status the tick writes has these three conditions, and
    when the status application inside the tick succeeds, as it does against
    a store that answers every request, the stored status of the operator
    has them after the tick. *)
Theorem pollFunc_dependency_error
    (r : StatusReporter) (w : World) (ok : bool) (e : error) (w1 : World) :
  CheckMachineAPI w = ((ok, Some e), w1) ->
  let message := "error checking machine-api operator status " +:+ Error e in
  let failing :=
    [(OperatorAvailable, ConditionTrue, "", "");
     (OperatorProgressing, ConditionFalse, "", "");
     (OperatorFailing, ConditionTrue, ReasonMissingDependency, message)] in
  let w' := snd (pollFunc r w) in
  pollFunc r w
    = ((false, None), snd (Fail r ReasonMissingDependency message w1))
  /\ shapes (fst (buildStatus r
                    (Fail_conditions ReasonMissingDependency message) w1))
     = failing
  /\ (forall obj,
        In (ActUpdateStatus obj) (actions w') ->
        In (ActUpdateStatus obj) (actions w)
        \/ shapes (ClusterOperator.Status obj) = failing)
  /\ (fst (Fail r ReasonMissingDependency message w1) = None ->
      exists stored,
        objects w' !! OperatorName = Some stored /\ shapes stored = failing)
  /\ (faults w1 = [] ->
      exists stored,
        objects w' !! OperatorName = Some stored /\ shapes stored = failing).
Proof.
  intros Hcheck message failing w'.
  assert (Htick : pollFunc r w
                  = ((false, None),
                     snd (Fail r ReasonMissingDependency message w1))).
  { unfold pollFunc, bind, ret. rewrite Hcheck.
    destruct (Fail _ _ _ w1). reflexivity. }
  assert (Hshape : shapes (fst (buildStatus r
                      (Fail_conditions ReasonMissingDependency message) w1))
                   = failing) by apply Fail_candidate.
  destruct (ApplyConditions_leaves r _ w1 failing Hshape)
    as (Hwrites & Hnil & Hanswered).
  unfold w'. rewrite Htick. simpl snd.
  split; [reflexivity|]. split; [exact Hshape|]. split; [|split].
  - intros obj H. apply Hwrites in H as [H|H]; [left | right; exact H].
    apply CheckMachineAPI_no_write. rewrite Hcheck. exact H.
  - exact Hnil.
  - exact Hanswered.
Qed.

(** C6: on a tick where the dependency is healthy and the observed version
    list equals the desired one, the reporter synthesizes exactly
    Available=True with empty reason, Progressing=False and Failing=False,
    the tick returns done, and the poll ends with a nil error, whether this
    is the immediate first tick or a later one.  The state is synthesized by
    the tick itself: every status the tick writes has these three
    conditions, and when the status application inside the tick succeeds, as
    it does against a store that answers every request, the stored status of
    the operator has them after the tick. *)
Theorem pollFunc_versions_equal_available
    (r : StatusReporter) (w w1 : World) (co : ClusterOperator.t) (w2 : World) :
  CheckMachineAPI w = ((true, None), w1) ->
  GetOrCreateClusterOperator w1 = ((co, None), w2) ->
  sameElements desiredVersions
    (ClusterOperatorStatus.Versions (ClusterOperator.Status co)) ->
  let available :=
    [(OperatorAvailable, ConditionTrue, "", "");
     (OperatorProgressing, ConditionFalse, "", "");
     (OperatorFailing, ConditionFalse, "", "")] in
  let w3 := snd (Available r ReasonEmpty "" w2) in
  let w' := snd (pollFunc r w) in
  pollFunc r w = ((true, None), w3)
  /\ shapes (fst (buildStatus r (Available_conditions ReasonEmpty "") w2))
     = available
  /\ (forall stopCh, Report r stopCh w = (None, w3))
  /\ (forall env rest w0, env w0 = w ->
        WaitFor (pollFunc r) (Tick env rest) w0 = (None, w3)
        /\ WaitFor (pollFunc r) (LastCall env) w0 = (None, w3))
  /\ (forall obj,
        In (ActUpdateStatus obj) (actions w') ->
        In (ActUpdateStatus obj) (actions w)
        \/ shapes (ClusterOperator.Status obj) = available)
  /\ (fst (Available r ReasonEmpty "" w2) = None ->
      exists stored,
        objects w' !! OperatorName = Some stored /\ shapes stored = available)
  /\ (faults w2 = [] ->
      exists stored,
        objects w' !! OperatorName = Some stored /\ shapes stored = available).
Proof.
  intros Hcheck Hget Hsame available w3 w'.
  assert (Htick : pollFunc r w = ((true, None), w3)).
  { rewrite (pollFunc_healthy r w w1 co w2 Hcheck Hget).
    unfold sameElements in Hsame. symmetry in Hsame.
    apply elems_singleton in Hsame. rewrite Hsame.
    replace (reflect_DeepEqual desiredVersions
               (Some [OperandVersion.mk "operator" Raw])) with true;
      [reflexivity|].
    symmetry. apply reflect_DeepEqual_eq. reflexivity. }
  assert (Hshape : shapes (fst (buildStatus r
                      (Available_conditions ReasonEmpty "") w2)) = available)
    by apply Available_candidate.
  destruct (ApplyConditions_leaves r _ w2 available Hshape)
    as (Hwrites & Hnil & Hanswered).
  unfold w'. rewrite Htick. simpl snd.
  split; [reflexivity|]. split; [exact Hshape|]. split; [|split; [|split]].
  - intros stopCh. unfold Report. apply PollImmediateUntil_done, Htick.
  - intros env rest w0 <-. apply WaitFor_done, Htick.
  - intros obj H. apply Hwrites in H as [H|H]; [left | right; exact H].
    apply CheckMachineAPI_no_write. rewrite Hcheck. simpl.
    apply GetOrCreateClusterOperator_no_write. rewrite Hget. exact H.
  - split; [exact Hnil | exact Hanswered].
Qed.

(** C7: on a tick where the dependency is healthy and the observed version
    list differs from the desired one, the reporter synthesizes
    Available=True, Progressing=True with reason SyncingResources and
    Failing=False; the message of Progressing ends with the desired operands
    rendered as "name: version" and joined by ", " in their order; the tick
    returns not-done with a nil error.  The state is synthesized by the tick
    itself: every status the tick writes has these three conditions, and
    when the status application inside the tick succeeds, as it does against
    a store that answers every request, the stored status of the operator
    has them after the tick. *)
Theorem pollFunc_versions_differ_progressing
    (r : StatusReporter) (w w1 : World) (co : ClusterOperator.t) (w2 : World) :
  CheckMachineAPI w = ((true, None), w1) ->
  GetOrCreateClusterOperator w1 = ((co, None), w2) ->
  ~ sameElements desiredVersions
      (ClusterOperatorStatus.Versions (ClusterOperator.Status co)) ->
  let message :=
    "Syncing to version " +:+ printOperandVersions desiredVersions in
  let progressing :=
    [(OperatorAvailable, ConditionTrue, "", "");
     (OperatorProgressing, ConditionTrue, ReasonSyncing, message);
     (OperatorFailing, ConditionFalse, "", "")] in
  let w' := snd (pollFunc r w) in
  pollFunc r w = ((false, None), snd (Progressing r ReasonSyncing message w2))
  /\ shapes (fst (buildStatus r
                    (Progressing_conditions ReasonSyncing message) w2))
     = progressing
  /\ message
     = "Syncing to version "
       +:+ joined ", " (map rendered (elems desiredVersions))
  /\ (forall desired,
        printOperandVersions desired
        = joined ", " (map rendered (elems desired)))
  /\ (forall obj,
        In (ActUpdateStatus obj) (actions w') ->
        In (ActUpdateStatus obj) (actions w)
        \/ shapes (ClusterOperator.Status obj) = progressing)
  /\ (fst (Progressing r ReasonSyncing message w2) = None ->
      exists stored,
        objects w' !! OperatorName = Some stored
        /\ shapes stored = progressing)
  /\ (faults w2 = [] ->
      exists stored,
        objects w' !! OperatorName = Some stored
        /\ shapes stored = progressing).
Proof.
  intros Hcheck Hget Hdiff message progressing w'.
  assert (Htick : pollFunc r w
                  = ((false, None),
                     snd (Progressing r ReasonSyncing message w2))).
  { rewrite (pollFunc_healthy r w w1 co w2 Hcheck Hget).
    destruct (reflect_DeepEqual desiredVersions _) eqn:Heq; [|reflexivity].
    exfalso. apply Hdiff. apply reflect_DeepEqual_eq in Heq.
    unfold sameElements. rewrite <- Heq. reflexivity. }
  assert (Hshape : shapes (fst (buildStatus r
                      (Progressing_conditions ReasonSyncing message) w2))
                   = progressing) by apply Progressing_candidate.
  destruct (ApplyConditions_leaves r _ w2 progressing Hshape)
    as (Hwrites & Hnil & Hanswered).
  unfold w'. rewrite Htick. simpl snd.
  split; [reflexivity|]. split; [exact Hshape|]. split; [|split; [|split]].
  - unfold message. rewrite printOperandVersions_joined. reflexivity.
  - apply printOperandVersions_joined.
  - intros obj H. apply Hwrites in H as [H|H]; [left | right; exact H].
    apply CheckMachineAPI_no_write. rewrite Hcheck. simpl.
    apply GetOrCreateClusterOperator_no_write. rewrite Hget. exact H.
  - split; [exact Hnil | exact Hanswered].
Qed.

(** X15: on a tick where the dependency record is fetched and is not
    healthy, the reporter synthesizes the Failing state with reason
    MissingDependency and the fixed message "machine-api operator not
    ready", and the tick returns not-done with a nil error.  Every status
    the tick writes has these three conditions, and when the status
    application inside the tick succeeds, as it does against a store that
    answers every request, the stored status of the operator has them after
    the tick. *)
Theorem pollFunc_dependency_not_ready
    (r : StatusReporter) (w w1 : World) :
  CheckMachineAPI w = ((false, None), w1) ->
  let message := "machine-api operator not ready" in
  let failing :=
    [(OperatorAvailable, ConditionTrue, "", "");
     (OperatorProgressing, ConditionFalse, "", "");
     (OperatorFailing, ConditionTrue, ReasonMissingDependency, message)] in
  let w' := snd (pollFunc r w) in
  pollFunc r w
    = ((false, None), snd (Fail r ReasonMissingDependency message w1))
  /\ shapes (fst (buildStatus r
                    (Fail_conditions ReasonMissingDependency message) w1))
     = failing
  /\ (forall obj,
        In (ActUpdateStatus obj) (actions w') ->
        In (ActUpdateStatus obj) (actions w)
        \/ shapes (ClusterOperator.Status obj) = failing)
  /\ (fst (Fail r ReasonMissingDependency message w1) = None ->
      exists stored,
        objects w' !! OperatorName = Some stored /\ shapes stored = failing)
  /\ (faults w1 = [] ->
      exists stored,
        objects w' !! OperatorName = Some stored /\ shapes stored = failing).
Proof.
  intros Hcheck message failing w'.
  assert (Htick : pollFunc r w
                  = ((false, None),
                     snd (Fail r ReasonMissingDependency message w1))).
  { unfold pollFunc, bind, ret. rewrite Hcheck.
    destruct (Fail _ _ _ w1). reflexivity. }
  assert (Hshape : shapes (fst (buildStatus r
                      (Fail_conditions ReasonMissingDependency message) w1))
                   = failing) by apply Fail_candidate.
  destruct (ApplyConditions_leaves r _ w1 failing Hshape)
    as (Hwrites & Hnil & Hanswered).
  unfold w'. rewrite Htick. simpl snd.
  split; [reflexivity|]. split; [exact Hshape|]. split; [|split].
  - intros obj H. apply Hwrites in H as [H|H]; [left | right; exact H].
    apply CheckMachineAPI_no_write. rewrite Hcheck. exact H.
  - exact Hnil.
  - exact Hanswered.
Qed.

(** X16: on a tick where the dependency is healthy and get-or-create fails
    inside the version comparator, the reporter synthesizes the Failing
    state with an empty reason and the text of the error in the message,
    and the tick returns not-done with a nil error.  Every status the tick
    writes has these three conditions, and when the status application
    inside the tick succeeds, as it does against a store that answers every
    further request, the stored status of the operator has them after the
    tick. *)
Theorem pollFunc_version_check_error
    (r : StatusReporter) (w w1 : World) (co : ClusterOperator.t) (e : error)
    (w2 : World) :
  CheckMachineAPI w = ((true, None), w1) ->
  GetOrCreateClusterOperator w1 = ((co, Some e), w2) ->
  let message :=
    "error checking cluster-autoscaler-operator version " +:+ Error e in
  let failing :=
    [(OperatorAvailable, ConditionTrue, "", "");
     (OperatorProgressing, ConditionFalse, "", "");
     (OperatorFailing, ConditionTrue, ReasonEmpty, message)] in
  let w' := snd (pollFunc r w) in
  pollFunc r w = ((false, None), snd (Fail r ReasonEmpty message w2))
  /\ shapes (fst (buildStatus r (Fail_conditions ReasonEmpty message) w2))
     = failing
  /\ (forall obj,
        In (ActUpdateStatus obj) (actions w') ->
        In (ActUpdateStatus obj) (actions w)
        \/ shapes (ClusterOperator.Status obj) = failing)
  /\ (fst (Fail r ReasonEmpty message w2) = None ->
      exists stored,
        objects w' !! OperatorName = Some stored /\ shapes stored = failing)
  /\ (faults w2 = [] ->
      exists stored,
        objects w' !! OperatorName = Some stored /\ shapes stored = failing).
Proof.
  intros Hcheck Hget message failing w'.
  assert (Htick : pollFunc r w
                  = ((false, None), snd (Fail r ReasonEmpty message w2))).
  { unfold pollFunc, bind, ret. rewrite Hcheck.
    unfold IsDifferentVersions, bind, ret. rewrite Hget.
    destruct (Fail _ _ _ w2). reflexivity. }
  assert (Hshape : shapes (fst (buildStatus r
                      (Fail_conditions ReasonEmpty message) w2)) = failing)
    by apply Fail_candidate.
  destruct (ApplyConditions_leaves r _ w2 failing Hshape)
    as (Hwrites & Hnil & Hanswered).
  unfold w'. rewrite Htick. simpl snd.
  split; [reflexivity|]. split; [exact Hshape|]. split; [|split].
  - intros obj H. apply Hwrites in H as [H|H]; [left | right; exact H].
    apply CheckMachineAPI_no_write. rewrite Hcheck. simpl.
    apply GetOrCreateClusterOperator_no_write. rewrite Hget. exact H.
  - exact Hnil.
  - exact Hanswered.
Qed.

End Reporter.

(** ** The theorems at the example worlds *)

(** C1 as stated fails: in the empty world the dependency record is
    missing, no tick reaches Available, the stop channel is already closed
    after the first tick, and [Report] returns the timeout error. *)
Lemma Report_cancelled_returns_timeout :
  doneInPoll (pollFunc exampleName exampleRaw exampleReporter) Stop emptyWorld
    = false
  /\ fst (Report exampleName exampleRaw exampleReporter Stop emptyWorld)
     = Some ErrWaitTimeout
  /\ fst (Report exampleName exampleRaw exampleReporter Stop emptyWorld)
     <> None.
Proof.
  split; [vm_compute; reflexivity|].
  split; [vm_compute; reflexivity | vm_compute; discriminate].
Qed.

Lemma pollFunc_dependency_error_witness :
  let e := NewNotFound "machine-api" in
  let w1 := snd (CheckMachineAPI emptyWorld) in
  let message := "error checking machine-api operator status " +:+ Error e in
  let w' := snd (pollFunc exampleName exampleRaw exampleReporter emptyWorld) in
  CheckMachineAPI emptyWorld = ((false, Some e), w1)
  /\ faults w1 = []
  /\ pollFunc exampleName exampleRaw exampleReporter emptyWorld
     = ((false, None),
        snd (Fail exampleName exampleRaw exampleReporter
               ReasonMissingDependency message w1))
  /\ exists stored,
       objects w' !! exampleName = Some stored
       /\ shapes stored
          = [(OperatorAvailable, ConditionTrue, "", "");
             (OperatorProgressing, ConditionFalse, "", "");
             (OperatorFailing, ConditionTrue, ReasonMissingDependency,
              message)].
Proof.
  intros e w1 message w'.
  assert (H : CheckMachineAPI emptyWorld = ((false, Some e), w1))
    by (vm_compute; reflexivity).
  assert (Hf : faults w1 = []) by (vm_compute; reflexivity).
  destruct (pollFunc_dependency_error exampleName exampleRaw exampleReporter
              emptyWorld false e w1 H) as (Htick & _ & _ & _ & Hstored).
  split; [exact H|]. split; [exact Hf|]. split; [exact Htick|].
  exact (Hstored Hf).
Defined.

(** C3 as stated fails: the list of [duplicateStatus] has an Available
    condition with status True and a Failing condition with status False,
    and yet the check reports the dependency as not healthy, because the
    first Available condition of the list is False. *)
Lemma CheckMachineAPI_duplicate_types :
  let conds := ClusterOperatorStatus.Conditions duplicateStatus in
  fst (client_Get "machine-api" duplicateWorld)
    = (ClusterOperator.mk "machine-api" duplicateStatus, None)
  /\ present conds OperatorAvailable ConditionTrue
  /\ present conds OperatorFailing ConditionFalse
  /\ fst (CheckMachineAPI duplicateWorld) = (false, None).
Proof.
  intros conds. split; [vm_compute; reflexivity|]. split; [|split].
  - exists (condition OperatorAvailable ConditionTrue).
    split; [right; left; reflexivity | split; reflexivity].
  - exists (condition OperatorFailing ConditionFalse).
    split; [right; right; left; reflexivity | split; reflexivity].
  - vm_compute. reflexivity.
Qed.

Lemma CheckMachineAPI_first_conditions_witness :
  let mao := ClusterOperator.mk "machine-api" healthyStatus in
  let w1 := snd (client_Get "machine-api" healthyWorld) in
  client_Get "machine-api" healthyWorld = ((mao, None), w1)
  /\ exists healthy,
       CheckMachineAPI healthyWorld = ((healthy, None), w1)
       /\ (healthy = true <->
           firstHasStatus (ClusterOperatorStatus.Conditions healthyStatus)
             OperatorAvailable ConditionTrue
           /\ firstHasStatus (ClusterOperatorStatus.Conditions healthyStatus)
                OperatorFailing ConditionFalse).
Proof.
  intros mao w1.
  assert (H : client_Get "machine-api" healthyWorld = ((mao, None), w1))
    by (vm_compute; reflexivity).
  split; [exact H|].
  exact (CheckMachineAPI_first_conditions healthyWorld mao None w1 H).
Defined.

(** C4 as stated fails: the record created in the empty world has a nil
    version list, which has the same elements as an empty desired list,
    namely none, and yet the comparator says that the two differ. *)
Lemma IsDifferentVersions_nil_against_empty :
  let co := ClusterOperator.mk exampleName ClusterOperatorStatus.zero in
  fst (GetOrCreateClusterOperator exampleName emptyWorld) = (co, None)
  /\ sameElements (Some [])
       (ClusterOperatorStatus.Versions (ClusterOperator.Status co))
  /\ fst (IsDifferentVersions exampleName (Some []) emptyWorld)
     = (true, None).
Proof.
  intros co. split; [vm_compute; reflexivity|].
  split; [reflexivity | vm_compute; reflexivity].
Qed.

Lemma IsDifferentVersions_not_deep_equal_witness :
  let desired := Some [OperandVersion.mk "operator" exampleRaw] in
  let co := ClusterOperator.mk exampleName syncedStatus in
  let w1 := snd (GetOrCreateClusterOperator exampleName syncedWorld) in
  GetOrCreateClusterOperator exampleName syncedWorld = ((co, None), w1)
  /\ IsDifferentVersions exampleName desired syncedWorld
     = ((false, None), w1).
Proof.
  intros desired co w1.
  assert (H : GetOrCreateClusterOperator exampleName syncedWorld
              = ((co, None), w1)) by (vm_compute; reflexivity).
  split; [exact H|].
  destruct (IsDifferentVersions_not_deep_equal exampleName desired
              syncedWorld co w1 H) as (differs & Hrun & Hiff & _).
  rewrite Hrun. rewrite (proj2 Hiff eq_refl). reflexivity.
Defined.

(** C5 at a failing input: in [tickingWorld] the same conditions are
    applied twice, the second time one poll interval after the first.  The
    conditions of the second candidate carry the later clock reading as
    their transition time, the candidate is not equal to the stored status,
    and the status is written a second time. *)
Theorem ApplyConditions_twice_writes_twice :
  let conds := Available_conditions ReasonEmpty "" in
  let w1 :=
    snd (ApplyConditions exampleName exampleRaw exampleReporter conds
           tickingWorld) in
  let w2 :=
    snd (ApplyConditions exampleName exampleRaw exampleReporter conds w1) in
  updates tickingWorld = 0%nat /\ updates w1 = 1%nat /\ updates w2 = 2%nat
  /\ map ClusterOperatorStatusCondition.LastTransitionTime
       (elems (ClusterOperatorStatus.Conditions
                 (fst (buildStatus exampleRaw exampleReporter conds
                         tickingWorld))))
     = [100; 100; 100]
  /\ map ClusterOperatorStatusCondition.LastTransitionTime
       (elems (ClusterOperatorStatus.Conditions
                 (fst (buildStatus exampleRaw exampleReporter conds w1))))
     = [115; 115; 115].
Proof. vm_compute. repeat split. Qed.

Lemma pollFunc_versions_equal_available_witness :
  let co := ClusterOperator.mk exampleName syncedStatus in
  let w1 := snd (CheckMachineAPI syncedWorld) in
  let w2 := snd (GetOrCreateClusterOperator exampleName w1) in
  let w3 :=
    snd (Available exampleName exampleRaw exampleReporter ReasonEmpty "" w2) in
  let w' := snd (pollFunc exampleName exampleRaw exampleReporter syncedWorld) in
  CheckMachineAPI syncedWorld = ((true, None), w1)
  /\ GetOrCreateClusterOperator exampleName w1 = ((co, None), w2)
  /\ sameElements (desiredVersions exampleRaw)
       (ClusterOperatorStatus.Versions (ClusterOperator.Status co))
  /\ faults w2 = []
  /\ pollFunc exampleName exampleRaw exampleReporter syncedWorld
     = ((true, None), w3)
  /\ Report exampleName exampleRaw exampleReporter Stop syncedWorld
     = (None, w3)
  /\ exists stored,
       objects w' !! exampleName = Some stored
       /\ shapes stored
          = [(OperatorAvailable, ConditionTrue, "", "");
             (OperatorProgressing, ConditionFalse, "", "");
             (OperatorFailing, ConditionFalse, "", "")].
Proof.
  intros co w1 w2 w3 w'.
  assert (H1 : CheckMachineAPI syncedWorld = ((true, None), w1))
    by (vm_compute; reflexivity).
  assert (H2 : GetOrCreateClusterOperator exampleName w1 = ((co, None), w2))
    by (vm_compute; reflexivity).
  assert (H3 : sameElements (desiredVersions exampleRaw)
                 (ClusterOperatorStatus.Versions (ClusterOperator.Status co)))
    by reflexivity.
  assert (Hf : faults w2 = []) by (vm_compute; reflexivity).
  destruct (pollFunc_versions_equal_available exampleName exampleRaw
              exampleReporter syncedWorld w1 co w2 H1 H2 H3)
    as (Htick & _ & Hreport & _ & _ & _ & Hstored).
  split; [exact H1|]. split; [exact H2|]. split; [exact H3|].
  split; [exact Hf|]. split; [exact Htick|]. split; [apply Hreport|].
  exact (Hstored Hf).
Defined.

Lemma pollFunc_versions_differ_progressing_witness :
  let co := ClusterOperator.mk exampleName ClusterOperatorStatus.zero in
  let w1 := snd (CheckMachineAPI healthyWorld) in
  let w2 := snd (GetOrCreateClusterOperator exampleName w1) in
  let w' := snd (pollFunc exampleName exampleRaw exampleReporter healthyWorld) in
  CheckMachineAPI healthyWorld = ((true, None), w1)
  /\ GetOrCreateClusterOperator exampleName w1 = ((co, None), w2)
  /\ ~ sameElements (desiredVersions exampleRaw)
         (ClusterOperatorStatus.Versions (ClusterOperator.Status co))
  /\ faults w2 = []
  /\ pollFunc exampleName exampleRaw exampleReporter healthyWorld
     = ((false, None),
        snd (Progressing exampleName exampleRaw exampleReporter ReasonSyncing
               "Syncing to version operator: v0.0.1" w2))
  /\ exists stored,
       objects w' !! exampleName = Some stored
       /\ shapes stored
          = [(OperatorAvailable, ConditionTrue, "", "");
             (OperatorProgressing, ConditionTrue, ReasonSyncing,
              "Syncing to version operator: v0.0.1");
             (OperatorFailing, ConditionFalse, "", "")].
Proof.
  intros co w1 w2 w'.
  assert (H1 : CheckMachineAPI healthyWorld = ((true, None), w1))
    by (vm_compute; reflexivity).
  assert (H2 : GetOrCreateClusterOperator exampleName w1 = ((co, None), w2))
    by (vm_compute; reflexivity).
  assert (H3 : ~ sameElements (desiredVersions exampleRaw)
                   (ClusterOperatorStatus.Versions (ClusterOperator.Status co)))
    by (vm_compute; discriminate).
  assert (Hf : faults w2 = []) by (vm_compute; reflexivity).
  destruct (pollFunc_versions_differ_progressing exampleName exampleRaw
              exampleReporter healthyWorld w1 co w2 H1 H2 H3)
    as (Htick & _ & _ & _ & _ & _ & Hstored).
  split; [exact H1|]. split; [exact H2|]. split; [exact H3|].
  split; [exact Hf|]. split; [exact Htick|].
  exact (Hstored Hf).
Defined.

Lemma GetOrCreateClusterOperator_fetch_or_create_witness :
  let w1 := snd (client_Get exampleName emptyWorld) in
  let created := ClusterOperator.mk exampleName ClusterOperatorStatus.zero in
  client_Get exampleName emptyWorld
    = ((ClusterOperator.zero, Some (NewNotFound exampleName)), w1)
  /\ GetOrCreateClusterOperator exampleName emptyWorld
     = client_Create created w1
  /\ fst (GetOrCreateClusterOperator exampleName emptyWorld) = (created, None).
Proof.
  intros w1 created.
  assert (H : client_Get exampleName emptyWorld
              = ((ClusterOperator.zero, Some (NewNotFound exampleName)), w1))
    by (vm_compute; reflexivity).
  destruct (GetOrCreateClusterOperator_fetch_or_create exampleName emptyWorld
              ClusterOperator.zero (Some (NewNotFound exampleName)) w1 H)
    as (_ & Hcreate & _).
  destruct (Hcreate eq_refl) as [Heq Hcreated].
  split; [exact H|]. split; [exact Heq|].
  destruct (GetOrCreateClusterOperator exampleName emptyWorld)
    as [[co [e|]] w2] eqn:Hrun; [vm_compute in Hrun; discriminate|].
  destruct (Hcreated co w2 eq_refl) as [-> _]. reflexivity.
Defined.


(** ** Further properties at the example worlds *)

Lemma GetOrCreateClusterOperator_again_witness :
  let co := ClusterOperator.mk exampleName ClusterOperatorStatus.zero in
  let w1 := snd (GetOrCreateClusterOperator exampleName emptyWorld) in
  GetOrCreateClusterOperator exampleName emptyWorld = ((co, None), w1)
  /\ fst (nextFault w1) = None
  /\ fst (GetOrCreateClusterOperator exampleName w1) = (co, None)
  /\ objects (snd (GetOrCreateClusterOperator exampleName w1)) = objects w1.
Proof.
  intros co w1.
  assert (H1 : GetOrCreateClusterOperator exampleName emptyWorld
               = ((co, None), w1)) by (vm_compute; reflexivity).
  assert (H2 : fst (nextFault w1) = None) by (vm_compute; reflexivity).
  destruct (GetOrCreateClusterOperator_again exampleName emptyWorld co w1
              H1 H2) as (Hres & Hobj & _).
  split; [exact H1|]. split; [exact H2|]. split; [exact Hres | exact Hobj].
Defined.

Lemma ApplyConditions_other_records_witness :
  let conds := Fail_conditions ReasonMissingDependency "not ready" in
  "machine-api" <> exampleName
  /\ objects (snd (ApplyConditions exampleName exampleRaw exampleReporter
                     conds healthyWorld)) !! "machine-api"
     = objects healthyWorld !! "machine-api".
Proof.
  intros conds.
  assert (H : "machine-api" <> exampleName) by (vm_compute; discriminate).
  split; [exact H|].
  exact (ApplyConditions_other_records exampleName exampleRaw exampleReporter
           conds healthyWorld "machine-api" H).
Defined.

Lemma ApplyConditions_nil_stored_witness :
  let conds := Available_conditions ReasonEmpty "" in
  let w' :=
    snd (ApplyConditions exampleName exampleRaw exampleReporter conds
           emptyWorld) in
  ApplyConditions exampleName exampleRaw exampleReporter conds emptyWorld
    = (None, w')
  /\ exists stored,
       objects w' !! exampleName = Some stored
       /\ Semantic_DeepEqual stored
            (fst (buildStatus exampleRaw exampleReporter conds emptyWorld))
          = true.
Proof.
  intros conds w'.
  assert (H : ApplyConditions exampleName exampleRaw exampleReporter conds
                emptyWorld = (None, w')) by (vm_compute; reflexivity).
  split; [exact H|].
  exact (ApplyConditions_nil_stored exampleName exampleRaw exampleReporter
           conds emptyWorld w' H).
Defined.

Lemma ApplyConditions_get_error_witness :
  let conds := Available_conditions ReasonEmpty "" in
  let w1 := snd (buildStatus exampleRaw exampleReporter conds refusedWorld) in
  let w2 := snd (GetOrCreateClusterOperator exampleName w1) in
  GetOrCreateClusterOperator exampleName w1
    = ((ClusterOperator.zero, Some refused), w2)
  /\ ApplyConditions exampleName exampleRaw exampleReporter conds refusedWorld
     = (Some refused, w2)
  /\ objects w2 = objects refusedWorld
  /\ updates w2 = updates refusedWorld.
Proof.
  intros conds w1 w2.
  assert (H : GetOrCreateClusterOperator exampleName w1
              = ((ClusterOperator.zero, Some refused), w2))
    by (vm_compute; reflexivity).
  split; [exact H|].
  exact (ApplyConditions_get_error exampleName exampleRaw exampleReporter
           conds refusedWorld ClusterOperator.zero refused w2 H).
Defined.

Lemma ApplyConditions_update_error_witness :
  let conds := Available_conditions ReasonEmpty "" in
  let status :=
    fst (buildStatus exampleRaw exampleReporter conds refusedWriteWorld) in
  let w1 :=
    snd (buildStatus exampleRaw exampleReporter conds refusedWriteWorld) in
  let co := ClusterOperator.mk exampleName ClusterOperatorStatus.zero in
  let w2 := snd (GetOrCreateClusterOperator exampleName w1) in
  let w3 :=
    snd (client_UpdateStatus (ClusterOperator.mk exampleName status) w2) in
  buildStatus exampleRaw exampleReporter conds refusedWriteWorld
    = (status, w1)
  /\ GetOrCreateClusterOperator exampleName w1 = ((co, None), w2)
  /\ Semantic_DeepEqual (ClusterOperator.Status co) status = false
  /\ client_UpdateStatus
       (ClusterOperator.mk (ClusterOperator.Name co) status) w2
     = ((ClusterOperator.zero, Some refused), w3)
  /\ ApplyConditions exampleName exampleRaw exampleReporter conds
       refusedWriteWorld = (Some refused, w3)
  /\ objects w3 = objects w2.
Proof.
  intros conds status w1 co w2 w3.
  assert (H1 : buildStatus exampleRaw exampleReporter conds refusedWriteWorld
               = (status, w1)) by (vm_compute; reflexivity).
  assert (H2 : GetOrCreateClusterOperator exampleName w1 = ((co, None), w2))
    by (vm_compute; reflexivity).
  assert (H3 : Semantic_DeepEqual (ClusterOperator.Status co) status = false)
    by (vm_compute; reflexivity).
  assert (H4 : client_UpdateStatus
                 (ClusterOperator.mk (ClusterOperator.Name co) status) w2
               = ((ClusterOperator.zero, Some refused), w3))
    by (vm_compute; reflexivity).
  split; [exact H1|]. split; [exact H2|]. split; [exact H3|].
  split; [exact H4|].
  exact (ApplyConditions_update_error exampleName exampleRaw exampleReporter
           conds refusedWriteWorld status w1 co w2 ClusterOperator.zero
           refused w3 H1 H2 H3 H4).
Defined.

Lemma ApplyConditions_written_fields_witness :
  let conds := Available_conditions ReasonEmpty "" in
  let obj :=
    ClusterOperator.mk exampleName
      (fst (buildStatus exampleRaw exampleReporter conds emptyWorld)) in
  let w' :=
    snd (ApplyConditions exampleName exampleRaw exampleReporter conds
           emptyWorld) in
  In (ActUpdateStatus obj) (actions w')
  /\ (In (ActUpdateStatus obj) (actions emptyWorld)
      \/ (ClusterOperatorStatus.RelatedObjects (ClusterOperator.Status obj)
            = relatedObjects exampleReporter
          /\ ClusterOperatorStatus.Versions (ClusterOperator.Status obj)
             = Some [OperandVersion.mk "cluster-autoscaler" exampleRaw]
          /\ ClusterOperatorStatus.Extension (ClusterOperator.Status obj)
             = "")).
Proof.
  intros conds obj w'.
  assert (H : In (ActUpdateStatus obj) (actions w'))
    by (vm_compute; left; reflexivity).
  split; [exact H|].
  exact (ApplyConditions_written_fields exampleName exampleRaw exampleReporter
           conds emptyWorld obj H).
Defined.

Lemma ApplyConditions_equal_no_write_witness :
  let conds := Available_conditions ReasonEmpty "" in
  let w :=
    snd (ApplyConditions exampleName exampleRaw exampleReporter conds
           emptyWorld) in
  let status := fst (buildStatus exampleRaw exampleReporter conds w) in
  let w1 := snd (buildStatus exampleRaw exampleReporter conds w) in
  let co := ClusterOperator.mk exampleName status in
  let w2 := snd (GetOrCreateClusterOperator exampleName w1) in
  buildStatus exampleRaw exampleReporter conds w = (status, w1)
  /\ GetOrCreateClusterOperator exampleName w1 = ((co, None), w2)
  /\ Semantic_DeepEqual (ClusterOperator.Status co) status = true
  /\ ApplyConditions exampleName exampleRaw exampleReporter conds w
     = (None, w2)
  /\ updates w2 = updates w.
Proof.
  intros conds w status w1 co w2.
  assert (H1 : buildStatus exampleRaw exampleReporter conds w = (status, w1))
    by (vm_compute; reflexivity).
  assert (H2 : GetOrCreateClusterOperator exampleName w1 = ((co, None), w2))
    by (vm_compute; reflexivity).
  assert (H3 : Semantic_DeepEqual (ClusterOperator.Status co) status = true)
    by (vm_compute; reflexivity).
  split; [exact H1|]. split; [exact H2|]. split; [exact H3|].
  exact (ApplyConditions_equal_no_write exampleName exampleRaw exampleReporter
           conds w status w1 co w2 H1 H2 H3).
Defined.

Lemma ApplyConditions_twice_still_clock_witness :
  let conds := Available_conditions ReasonEmpty "" in
  let w1 :=
    snd (ApplyConditions exampleName exampleRaw exampleReporter conds
           emptyWorld) in
  clock emptyWorld = [] /\ faults emptyWorld = []
  /\ updates (snd (ApplyConditions exampleName exampleRaw exampleReporter
                     conds w1))
     = updates w1.
Proof.
  intros conds w1.
  assert (H1 : clock emptyWorld = []) by reflexivity.
  assert (H2 : faults emptyWorld = []) by reflexivity.
  split; [exact H1|]. split; [exact H2|].
  exact (ApplyConditions_twice_still_clock exampleName exampleRaw
           exampleReporter conds emptyWorld H1 H2).
Defined.

Lemma pollFunc_dependency_not_ready_witness :
  let w1 := snd (CheckMachineAPI duplicateWorld) in
  let w' :=
    snd (pollFunc exampleName exampleRaw exampleReporter duplicateWorld) in
  CheckMachineAPI duplicateWorld = ((false, None), w1)
  /\ faults w1 = []
  /\ pollFunc exampleName exampleRaw exampleReporter duplicateWorld
     = ((false, None),
        snd (Fail exampleName exampleRaw exampleReporter
               ReasonMissingDependency "machine-api operator not ready" w1))
  /\ exists stored,
       objects w' !! exampleName = Some stored
       /\ shapes stored
          = [(OperatorAvailable, ConditionTrue, "", "");
             (OperatorProgressing, ConditionFalse, "", "");
             (OperatorFailing, ConditionTrue, ReasonMissingDependency,
              "machine-api operator not ready")].
Proof.
  intros w1 w'.
  assert (H : CheckMachineAPI duplicateWorld = ((false, None), w1))
    by (vm_compute; reflexivity).
  assert (Hf : faults w1 = []) by (vm_compute; reflexivity).
  destruct (pollFunc_dependency_not_ready exampleName exampleRaw
              exampleReporter duplicateWorld w1 H)
    as (Htick & _ & _ & _ & Hstored).
  split; [exact H|]. split; [exact Hf|]. split; [exact Htick|].
  exact (Hstored Hf).
Defined.

Lemma pollFunc_version_check_error_witness :
  let w1 := snd (CheckMachineAPI refusedVersionWorld) in
  let w2 := snd (GetOrCreateClusterOperator exampleName w1) in
  let message :=
    "error checking cluster-autoscaler-operator version " +:+ Error refused in
  let w' :=
    snd (pollFunc exampleName exampleRaw exampleReporter refusedVersionWorld) in
  CheckMachineAPI refusedVersionWorld = ((true, None), w1)
  /\ GetOrCreateClusterOperator exampleName w1
     = ((ClusterOperator.zero, Some refused), w2)
  /\ faults w2 = []
  /\ pollFunc exampleName exampleRaw exampleReporter refusedVersionWorld
     = ((false, None),
        snd (Fail exampleName exampleRaw exampleReporter ReasonEmpty
               message w2))
  /\ exists stored,
       objects w' !! exampleName = Some stored
       /\ shapes stored
          = [(OperatorAvailable, ConditionTrue, "", "");
             (OperatorProgressing, ConditionFalse, "", "");
             (OperatorFailing, ConditionTrue, ReasonEmpty, message)].
Proof.
  intros w1 w2 message w'.
  assert (H1 : CheckMachineAPI refusedVersionWorld = ((true, None), w1))
    by (vm_compute; reflexivity).
  assert (H2 : GetOrCreateClusterOperator exampleName w1
               = ((ClusterOperator.zero, Some refused), w2))
    by (vm_compute; reflexivity).
  assert (Hf : faults w2 = []) by (vm_compute; reflexivity).
  destruct (pollFunc_version_check_error exampleName exampleRaw
              exampleReporter refusedVersionWorld w1 ClusterOperator.zero
              refused w2 H1 H2) as (Htick & _ & _ & _ & Hstored).
  split; [exact H1|]. split; [exact H2|]. split; [exact Hf|].
  split; [exact Htick|].
  exact (Hstored Hf).
Defined.

Lemma Report_never_nil_on_its_own_witness :
  let stopCh := Tick id (Tick id (LastCall id)) in
  neverDesired exampleName exampleRaw healthyWorld
  /\ quietSchedule exampleName exampleRaw stopCh
  /\ fst (Report exampleName exampleRaw exampleReporter stopCh healthyWorld)
     = Some ErrWaitTimeout.
Proof.
  intros stopCh.
  assert (H1 : neverDesired exampleName exampleRaw healthyWorld).
  { intros status H. vm_compute in H. discriminate. }
  assert (H2 : quietSchedule exampleName exampleRaw stopCh).
  { simpl. repeat split; intros w H; exact H. }
  split; [exact H1|]. split; [exact H2|].
  exact (Report_never_nil_on_its_own exampleName exampleRaw exampleReporter
           stopCh healthyWorld H1 H2).
Defined.

Lemma printOperandVersions_app_witness :
  let l1 := [OperandVersion.mk "operator" "v1"] in
  let l2 :=
    [OperandVersion.mk "cluster-autoscaler" "v2";
     OperandVersion.mk "machine-api" "v3"] in
  l1 <> [] /\ l2 <> []
  /\ printOperandVersions (Some (l1 ++ l2))
     = printOperandVersions (Some l1) +:+ ", "
       +:+ printOperandVersions (Some l2).
Proof.
  intros l1 l2.
  assert (H1 : l1 <> []) by discriminate.
  assert (H2 : l2 <> []) by discriminate.
  split; [exact H1|]. split; [exact H2|].
  exact (printOperandVersions_app l1 l2 H1 H2).
Defined.
